(** * connectors_qa: the connector quality-assurance checks

    A shallow embedding of [connectors_qa/utils.py], [models.py], [checks.py],
    [__init__.py] and [cli.py].

    Python values are embedded as follows.
    - A [str] is a Rocq [string]; each character stands for the code point of
      the same number, so the model covers texts whose code points are below
      256.  The [str] methods the checks call are defined in [PyStr] with
      Python's behaviour on that range.
    - A parsed YAML or TOML document is a [PyVal].
    - A call that can raise is a value of [Outcome]: either a returned value or
      the raised exception.
    - The file system, the process environment and the external collaborators
      (the TOML loader, the metadata validator, the connector accessor) are
      the fields of a [World] that every check receives. *)

From Stdlib Require Import Strings.String Strings.Ascii Lists.List Bool.Bool.
From Stdlib Require Import Arith.PeanoNat Arith.Arith micromega.Lia ZArith.ZArith.
From Stdlib Require Import Sorting.Permutation Numbers.DecimalString.
Import ListNotations.
Open Scope list_scope.
Open Scope string_scope.

(** ** Python [str] methods *)

Module PyStr.

Definition code (c : ascii) : nat := nat_of_ascii c.

Definition between (lo hi n : nat) : bool := ((lo <=? n) && (n <=? hi))%nat.

(** [str.isspace] on one character: U+0009..U+000D, U+001C..U+0020, U+0085,
    U+00A0. *)
Definition isspace (c : ascii) : bool :=
  let n := code c in
  between 9 13 n || between 28 32 n || (n =? 133)%nat || (n =? 160)%nat.

(** The line boundaries of [str.splitlines] below 256. *)
Definition is_linebreak (c : ascii) : bool :=
  let n := code c in
  between 10 13 n || between 28 30 n || (n =? 133)%nat.

Definition lower_char (c : ascii) : ascii :=
  let n := code c in
  if between 65 90 n || between 192 214 n || between 216 222 n
  then ascii_of_nat (n + 32) else c.

Fixpoint lower (s : string) : string :=
  match s with
  | EmptyString => EmptyString
  | String c s' => String (lower_char c) (lower s')
  end.

(** [str.upper].  U+00DF becomes "SS"; the two characters whose upper case
    lies above 255 (U+00B5, U+00FF) are left in place, which does not change
    any comparison with an ASCII literal. *)
Definition upper_char (c : ascii) : string :=
  let n := code c in
  if between 97 122 n || between 224 246 n || between 248 254 n
  then String (ascii_of_nat (n - 32)) EmptyString
  else if (n =? 223)%nat then "SS" else String c EmptyString.

Fixpoint upper (s : string) : string :=
  match s with
  | EmptyString => EmptyString
  | String c s' => upper_char c ++ upper s'
  end.

(** [s.startswith(p)] *)
Fixpoint startswith (s p : string) {struct p} : bool :=
  match p with
  | EmptyString => true
  | String a p' =>
      match s with
      | EmptyString => false
      | String b s' => Ascii.eqb b a && startswith s' p'
      end
  end.

(** [s.endswith(p)] *)
Fixpoint endswith (s p : string) : bool :=
  String.eqb s p ||
  match s with
  | EmptyString => false
  | String _ s' => endswith s' p
  end.

(** [p in s] *)
Fixpoint contains (s p : string) : bool :=
  startswith s p ||
  match s with
  | EmptyString => false
  | String _ s' => contains s' p
  end.

Fixpoint lstrip (s : string) : string :=
  match s with
  | EmptyString => EmptyString
  | String c s' => if isspace c then lstrip s' else s
  end.

Fixpoint rstrip (s : string) : string :=
  match s with
  | EmptyString => EmptyString
  | String c s' =>
      match rstrip s' with
      | EmptyString => if isspace c then EmptyString else String c EmptyString
      | r => String c r
      end
  end.

Definition strip (s : string) : string := lstrip (rstrip s).

(** [s.replace(old, new)] for a non-empty [old]: scan from the left, and at
    each position where [old] starts emit [new] and jump over [old].  [skip]
    counts the characters of the current match still to jump over. *)
Fixpoint replace_go (old new : string) (skip : nat) (s : string) : string :=
  match s with
  | EmptyString => EmptyString
  | String c s' =>
      match skip with
      | S k => replace_go old new k s'
      | O =>
          if startswith s old
          then new ++ replace_go old new (String.length old - 1) s'
          else String c (replace_go old new 0 s')
      end
  end.

(** With an empty [old], Python puts [new] before every character and at the
    end. *)
Fixpoint interleave (new s : string) : string :=
  match s with
  | EmptyString => new
  | String c s' => new ++ String c (interleave new s')
  end.

Definition replace (s old new : string) : string :=
  match old with
  | EmptyString => interleave new s
  | _ => replace_go old new 0 s
  end.

(** [s.splitlines()]: a carriage return followed by a line feed is one
    boundary, and a final boundary opens no further line. *)
Fixpoint splitlines (s : string) : list string :=
  match s with
  | EmptyString => []
  | String c s' =>
      if is_linebreak c then
        EmptyString ::
        (if (code c =? 13)%nat then
           match s' with
           | String d s'' => if (code d =? 10)%nat then splitlines s'' else splitlines s'
           | EmptyString => []
           end
         else splitlines s')
      else
        match splitlines s' with
        | [] => [String c EmptyString]
        | l :: ls => String c l :: ls
        end
  end.

(** The lines a text file yields when iterated: cut after every line feed,
    the line feed kept. *)
Fixpoint iter_lines (s : string) : list string :=
  match s with
  | EmptyString => []
  | String c s' =>
      if (code c =? 10)%nat then String c EmptyString :: iter_lines s'
      else
        match iter_lines s' with
        | [] => [String c EmptyString]
        | l :: ls => String c l :: ls
        end
  end.

(** [s.split(sep)] for a one-character separator. *)
Fixpoint split (sep : ascii) (s : string) : list string :=
  match s with
  | EmptyString => [EmptyString]
  | String c s' =>
      if Ascii.eqb c sep then EmptyString :: split sep s'
      else
        match split sep s' with
        | [] => [String c EmptyString]
        | l :: ls => String c l :: ls
        end
  end.

(** [s.partition(sep)]: the text before the first [sep] and, when there is
    one, the text after it. *)
Fixpoint partition (sep : ascii) (s : string) : string * option string :=
  match s with
  | EmptyString => (EmptyString, None)
  | String c s' =>
      if Ascii.eqb c sep then (EmptyString, Some s')
      else let (a, b) := partition sep s' in (String c a, b)
  end.

(** [sep.join(parts)] *)
Fixpoint join (sep : string) (parts : list string) : string :=
  match parts with
  | [] => EmptyString
  | [p] => p
  | p :: ps => p ++ sep ++ join sep ps
  end.

Definition mem (s : string) (l : list string) : bool := existsb (String.eqb s) l.

(** [sorted(keys, reverse=True)] on strings: code-point lexicographic order,
    largest first. *)
Fixpoint insert_desc (x : string) (l : list string) : list string :=
  match l with
  | [] => [x]
  | y :: l' => if String.ltb x y then y :: insert_desc x l' else x :: l
  end.

Definition sorted_reverse (l : list string) : list string :=
  fold_right insert_desc [] l.

End PyStr.

(** ** Parsed documents, exceptions and outcomes *)

(** A value of a parsed YAML or TOML document.  Mapping keys are strings and a
    mapping keeps its entries in document order; floats and dates are outside
    the model. *)
#[warnings="-register-all"] Inductive PyVal : Type :=
| VNone
| VBool (b : bool)
| VInt (z : Z)
| VStr (s : string)
| VList (l : list PyVal)
| VDict (d : list (string * PyVal)).

Definition PyDict : Type := list (string * PyVal).

(** The exceptions that the checks or their collaborators raise.
    [TomlDecodeError] and [UnicodeDecodeError] are subclasses of
    [ValueError]. *)
Inductive PyExn : Type :=
| ValueError (msg : string)
| TomlDecodeError
| UnicodeDecodeError
| IndexError
| KeyError (key : string)
| AttributeError
| TypeError
| FileNotFoundError
| IsADirectoryError
| ClickException (msg : string)
| OtherError (name : string).

Definition is_ValueError (e : PyExn) : bool :=
  match e with
  | ValueError _ | TomlDecodeError | UnicodeDecodeError => true
  | _ => false
  end.

Inductive Outcome (A : Type) : Type :=
| Returns (a : A)
| Raises (e : PyExn).
Arguments Returns {A} a.
Arguments Raises {A} e.

Definition bind {A B : Type} (c : Outcome A) (k : A -> Outcome B) : Outcome B :=
  match c with
  | Returns a => k a
  | Raises e => Raises e
  end.

Notation "x <- c ;; k" := (bind c (fun x => k))
  (at level 61, c at next level, right associativity).

(** [try: body except ValueError: handler] *)
Definition try_except_ValueError {A : Type} (body handler : Outcome A) : Outcome A :=
  match body with
  | Returns a => Returns a
  | Raises e => if is_ValueError e then handler else Raises e
  end.

Module Py.

Definition str_of_Z (z : Z) : string := NilZero.string_of_int (Z.to_int z).
Definition str_of_N (n : N) : string := NilZero.string_of_uint (N.to_uint n).

(** Truth value of a document value. *)
Definition truthy (v : PyVal) : bool :=
  match v with
  | VNone => false
  | VBool b => b
  | VInt z => negb (z =? 0)%Z
  | VStr s => negb (String.eqb s "")
  | VList l => match l with [] => false | _ => true end
  | VDict d => match d with [] => false | _ => true end
  end.

(** [repr(v)], for strings that need no escaping. *)
Fixpoint repr (v : PyVal) : string :=
  match v with
  | VNone => "None"
  | VBool true => "True"
  | VBool false => "False"
  | VInt z => str_of_Z z
  | VStr s => "'" ++ s ++ "'"
  | VList l => "[" ++ PyStr.join ", " (map repr l) ++ "]"
  | VDict d =>
      "{" ++ PyStr.join ", "
               (map (fun kv => match kv with
                               | (k, x) => "'" ++ k ++ "': " ++ repr x
                               end) d) ++ "}"
  end.

(** [str(v)], also what an f-string prints. *)
Definition str (v : PyVal) : string :=
  match v with
  | VStr s => s
  | _ => repr v
  end.

Definition str_opt (o : option string) : string :=
  match o with
  | Some s => s
  | None => "None"
  end.

(** [repr] of a list of strings, for strings that [repr] writes between
    single quotes and as they are: printable strings with no single quote and
    no backslash, as the version keys and the headings built from them are.
    Only message texts are built with it. *)
Definition repr_strs (l : list string) : string :=
  "[" ++ PyStr.join ", " (map (fun s => "'" ++ s ++ "'") l) ++ "]".

Fixpoint lookup (k : string) (d : PyDict) : option PyVal :=
  match d with
  | [] => None
  | (k', v) :: d' => if String.eqb k k' then Some v else lookup k d'
  end.

Definition keys (d : PyDict) : list string := map fst d.

(** [v[k]] *)
Definition getitem (v : PyVal) (k : string) : Outcome PyVal :=
  match v with
  | VDict d =>
      match lookup k d with
      | Some x => Returns x
      | None => Raises (KeyError k)
      end
  | _ => Raises TypeError
  end.

(** [v.keys()] *)
Definition dict_keys (v : PyVal) : Outcome (list string) :=
  match v with
  | VDict d => Returns (keys d)
  | _ => Raises AttributeError
  end.

(** [v.lower()] and [v.upper()] exist on strings only. *)
Definition lower (v : PyVal) : Outcome string :=
  match v with
  | VStr s => Returns (PyStr.lower s)
  | _ => Raises AttributeError
  end.

Definition upper (v : PyVal) : Outcome string :=
  match v with
  | VStr s => Returns (PyStr.upper s)
  | _ => Raises AttributeError
  end.

(** [l[0]] *)
Definition first {A : Type} (l : list A) : Outcome A :=
  match l with
  | x :: _ => Returns x
  | [] => Raises IndexError
  end.

(** [pydash.objects.get(obj, path, default)] with the path already cut at
    its dots: follow the keys through nested mappings, and give [default] as
    soon as one is missing or the value at hand is not a mapping. *)
Fixpoint get (obj : PyVal) (path : list string) (default : PyVal) : PyVal :=
  match path with
  | [] => obj
  | k :: path' =>
      match obj with
      | VDict d =>
          match lookup k d with
          | Some x => get x path' default
          | None => default
          end
      | _ => default
      end
  end.

Definition of_metadata (m : option PyDict) : PyVal :=
  match m with
  | Some d => VDict d
  | None => VNone
  end.

End Py.

(** ** The [semver] package

    [Version.parse] of the third-party [semver] package, after its grammar:
    [MAJOR.MINOR.PATCH], then optionally [-PRERELEASE], then optionally
    [+BUILD].  The three numbers and every numeric pre-release identifier have
    no leading zero; identifiers are non-empty and made of ASCII letters,
    digits and hyphens.  The package matches with a pattern that ends in [$],
    which also accepts one final line feed. *)

Module semver.

Record Version : Type := {
  major : N;
  minor : N;
  patch : N;
  prerelease : option string;
  build : option string
}.

Definition is_digit (c : ascii) : bool := PyStr.between 48 57 (PyStr.code c).

Definition is_ident_char (c : ascii) : bool :=
  let n := PyStr.code c in
  PyStr.between 48 57 n || PyStr.between 65 90 n || PyStr.between 97 122 n
  || (n =? 45)%nat.

Fixpoint all_chars (f : ascii -> bool) (s : string) : bool :=
  match s with
  | EmptyString => true
  | String c s' => f c && all_chars f s'
  end.

(** [0|[1-9]\d*] *)
Definition is_numeric_ident (s : string) : bool :=
  match s with
  | EmptyString => false
  | String c s' =>
      all_chars is_digit s
      && (negb (Ascii.eqb c "0") || String.eqb s' EmptyString)
  end.

(** [[0-9a-zA-Z-]+] *)
Definition is_build_ident (s : string) : bool :=
  negb (String.eqb s EmptyString) && all_chars is_ident_char s.

(** [0|[1-9]\d*|\d*[a-zA-Z-][0-9a-zA-Z-]*] *)
Definition is_prerelease_ident (s : string) : bool :=
  is_build_ident s && (negb (all_chars is_digit s) || is_numeric_ident s).

Fixpoint digits_value (acc : N) (s : string) : N :=
  match s with
  | EmptyString => acc
  | String c s' => digits_value (acc * 10 + N.of_nat (PyStr.code c - 48)) s'
  end.

Definition drop_final_newline (s : string) : string :=
  if PyStr.endswith s (String "010" EmptyString)
  then String.substring 0 (String.length s - 1) s
  else s.

Definition parse (version : string) : Outcome Version :=
  let invalid := Raises (ValueError (version ++ " is not valid SemVer string")) in
  let (rest, bld) := PyStr.partition "+" (drop_final_newline version) in
  let (core, pre) := PyStr.partition "-" rest in
  let build_ok :=
    match bld with
    | None => true
    | Some b => forallb is_build_ident (PyStr.split "." b)
    end in
  let pre_ok :=
    match pre with
    | None => true
    | Some p => forallb is_prerelease_ident (PyStr.split "." p)
    end in
  match PyStr.split "." core with
  | [a; b; c] =>
      if is_numeric_ident a && is_numeric_ident b && is_numeric_ident c
         && pre_ok && build_ok
      then Returns {| major := digits_value 0 a;
                      minor := digits_value 0 b;
                      patch := digits_value 0 c;
                      prerelease := pre;
                      build := bld |}
      else invalid
  | _ => invalid
  end.

Definition opt_eqb (a b : option string) : bool :=
  match a, b with
  | None, None => true
  | Some x, Some y => String.eqb x y
  | _, _ => false
  end.

(** [v1 != v2]: the comparison of the package looks at the three numbers and
    at the pre-release, never at the build. *)
Definition ne (v1 v2 : Version) : bool :=
  negb ((major v1 =? major v2)%N && (minor v1 =? minor v2)%N
        && (patch v1 =? patch v2)%N && opt_eqb (prerelease v1) (prerelease v2)).

Definition str (v : Version) : string :=
  Py.str_of_N (major v) ++ "." ++ Py.str_of_N (minor v) ++ "."
  ++ Py.str_of_N (patch v)
  ++ match prerelease v with Some p => "-" ++ p | None => "" end
  ++ match build v with Some b => "+" ++ b | None => "" end.

End semver.

(** ** Paths and the file system *)

(** A path is the list of its parts. *)
Definition Path : Type := list string.

Module pathlib.

Definition eqb (p q : Path) : bool :=
  if list_eq_dec String.string_dec p q then true else false.

(** [p / name] *)
Definition div (p : Path) (name : string) : Path := (p ++ [name])%list.

(** [str(p)] *)
Definition str (p : Path) : string := PyStr.join "/" p.

Definition str_opt (o : option Path) : string :=
  match o with
  | Some p => str p
  | None => "None"
  end.

Definition name (p : Path) : string := last p EmptyString.

(** The text from the last dot of [s] on, if [s] has a dot. *)
Fixpoint from_last_dot (s : string) : option string :=
  match s with
  | EmptyString => None
  | String c s' =>
      match from_last_dot s' with
      | Some r => Some r
      | None => if Ascii.eqb c "." then Some s else None
      end
  end.

(** [p.suffix]: the last dot of the name and what follows it, unless that dot
    is the first or the last character of the name. *)
Definition suffix (p : Path) : string :=
  match name p with
  | EmptyString => EmptyString
  | String _ rest =>
      match from_last_dot rest with
      | Some r => if (String.length r =? 1)%nat then EmptyString else r
      | None => EmptyString
      end
  end.

(** [fnmatch] for patterns made of literal characters, [?] and [*]. *)
Fixpoint fnmatch (pattern s : string) : bool :=
  match pattern with
  | EmptyString => String.eqb s EmptyString
  | String c pattern' =>
      if Ascii.eqb c "*" then
        (fix star (t : string) : bool :=
           fnmatch pattern' t ||
           match t with
           | EmptyString => false
           | String _ t' => star t'
           end) s
      else
        match s with
        | EmptyString => false
        | String d s' =>
            (Ascii.eqb c "?" || Ascii.eqb c d) && fnmatch pattern' s'
        end
  end.

(** [p.match(pattern)] for a pattern of one part: it is matched against the
    name. *)
Definition match_ (p : Path) (pattern : string) : bool :=
  match p with
  | [] => false
  | _ => fnmatch pattern (name p)
  end.

Fixpoint is_prefix (p q : Path) : bool :=
  match p, q with
  | [], _ => true
  | a :: p', b :: q' => String.eqb a b && is_prefix p' q'
  | _ :: _, [] => false
  end.

End pathlib.

(** What reading a file as text gives: its text, as text mode hands it over
    (line ends already turned into line feeds), or a decoding error after some
    lines were already read. *)
Inductive FileContent : Type :=
| Text (s : string)
| Undecodable (lines_before : list string).

Inductive Node : Type :=
| Dir
| File (c : FileContent).

Definition FS : Type := list (Path * Node).

Module fs.

Fixpoint lookup (t : FS) (p : Path) : option Node :=
  match t with
  | [] => None
  | (q, n) :: t' => if pathlib.eqb p q then Some n else lookup t' p
  end.

(** [p.exists()] *)
Definition exists_ (t : FS) (p : Path) : bool :=
  match lookup t p with
  | Some _ => true
  | None => false
  end.

(** [p.is_file()] *)
Definition is_file (t : FS) (p : Path) : bool :=
  match lookup t p with
  | Some (File _) => true
  | _ => false
  end.

(** [p.read_text()], [open(p).read()] *)
Definition read_text (t : FS) (p : Path) : Outcome string :=
  match lookup t p with
  | Some (File (Text s)) => Returns s
  | Some (File (Undecodable _)) => Raises UnicodeDecodeError
  | Some Dir => Raises IsADirectoryError
  | None => Raises FileNotFoundError
  end.

(** The lines that [for line in open(p, "r")] yields before the loop ends or
    a decoding error stops it. *)
Definition lines_read (c : FileContent) : list string :=
  match c with
  | Text s => PyStr.iter_lines s
  | Undecodable ls => ls
  end.

(** [directory.rglob("*")]: every path below [directory]. *)
Definition rglob (t : FS) (directory : Path) : list Path :=
  filter (fun p => pathlib.is_prefix directory p && negb (pathlib.eqb p directory))
         (map fst t).

End fs.

(** ** The connector accessor and the world around a run *)

(** Modelled from the spec: the enumeration [ConnectorLanguage] of
    [connector_ops.utils], which is not among the sources.  The specification
    names Python, low-code and Java; these are the members that
    [models.ALL_LANGUAGES] lists. *)
Inductive ConnectorLanguage : Type := JAVA | LOW_CODE | PYTHON.

Definition language_eqb (a b : ConnectorLanguage) : bool :=
  match a, b with
  | JAVA, JAVA | LOW_CODE, LOW_CODE | PYTHON, PYTHON => true
  | _, _ => false
  end.

Definition language_value (l : ConnectorLanguage) : string :=
  match l with
  | JAVA => "java"
  | LOW_CODE => "low-code"
  | PYTHON => "python"
  end.

Definition language_in (l : ConnectorLanguage) (ls : list ConnectorLanguage) : bool :=
  existsb (language_eqb l) ls.

(** Modelled from the spec: the [Connector] of [connector_ops.utils], which is
    not among the sources.  The specification gives it a technical name, a
    declared language, a code directory, an optional parsed metadata document,
    optional paths of the documentation, the icon and the migration guide, and
    a version string; [connector_name] and [name_from_metadata] are the two
    further attributes ([name], [name_from_metadata]) that the checks print. *)
Record Connector : Type := {
  technical_name : string;
  connector_name : string;
  name_from_metadata : option string;
  language : ConnectorLanguage;
  metadata : option PyDict;
  code_directory : Path;
  documentation_file_path : option Path;
  migration_guide_file_path : option Path;
  icon_path : option Path;
  version : string
}.

(** The state outside the program.  [set_iter] is the order in which this
    process iterates over a set of strings, which Python leaves open; a
    well-formed world returns the elements it is given, in some order.
    [toml_load] is [toml.load], [validate_metadata] is the command of
    [metadata_service] run through [CliRunner().invoke], giving its exit code
    and output, and [resolve] is the constructor [Connector(name)]: the three
    are collaborators outside the sources and are taken as given. *)
Record World : Type := {
  files : FS;
  environ : list string;
  set_iter : list string -> list string;
  toml_load : Path -> Outcome PyVal;
  validate_metadata : Path -> Path -> Outcome (Z * string);
  resolve : string -> Connector
}.

Definition set_iter_ok (w : World) : Prop :=
  forall l : list string, Permutation (set_iter w l) l.

(** Adding to a set of strings. *)
Definition set_add (x : string) (s : list string) : list string :=
  if PyStr.mem x s then s else (s ++ [x])%list.

(** ** consts.py *)

Module consts.
Definition DOCKERFILE_NAME := "Dockerfile".
Definition METADATA_FILE_NAME := "metadata.yaml".
Definition POETRY_LOCK_FILE_NAME := "poetry.lock".
Definition PYPROJECT_FILE_NAME := "pyproject.toml".
Definition SETUP_PY_FILE_NAME := "setup.py".
End consts.

(** ** utils.py *)

Definition strict_encrypt_suffixes : list string := ["-strict-encrypt"; "-secure"].

Fixpoint remove_suffix_loop (suffixes : list string) (connector_technical_name : string)
  : string :=
  match suffixes with
  | [] => connector_technical_name
  | suffix :: rest =>
      if PyStr.endswith connector_technical_name suffix
      then PyStr.replace connector_technical_name suffix ""
      else remove_suffix_loop rest connector_technical_name
  end.

Definition remove_strict_encrypt_suffix (connector_technical_name : string) : string :=
  remove_suffix_loop strict_encrypt_suffixes connector_technical_name.

(** ** models.py *)

Definition ALL_LANGUAGES : list ConnectorLanguage := [JAVA; LOW_CODE; PYTHON].

Inductive CheckCategory : Type := CODE_QUALITY | DOCUMENTATION | ASSETS | SECURITY.

Inductive CheckStatus : Type := PASSED | FAILED | SKIPPED.

Definition status_eqb (a b : CheckStatus) : bool :=
  match a, b with
  | PASSED, PASSED | FAILED, FAILED | SKIPPED, SKIPPED => true
  | _, _ => false
  end.

(** A result names the check that produced it. *)
Record CheckResult : Type := {
  check : string;
  status : CheckStatus;
  message : string
}.

(** A check: its constant attributes and its [_run].  A [_run] that ends
    without a [return] gives Python's [None], here [Returns None].  The
    description, used for the generated documentation only, is left out, and
    the connector is passed to [_run] instead of being stored on the check. *)
Record Check : Type := {
  name : string;
  category : CheckCategory;
  required : bool;
  applies_to_connector_languages : list ConnectorLanguage;
  _run : World -> Connector -> Outcome (option CheckResult)
}.

Definition skip (self_name : string) (reason : string) : CheckResult :=
  {| check := self_name; status := SKIPPED; message := reason |}.

Definition create_check_result (self_name : string) (passed : bool) (msg : string)
  : CheckResult :=
  {| check := self_name; status := if passed then PASSED else FAILED; message := msg |}.

Definition run (self : Check) (w : World) (connector : Connector)
  : Outcome (option CheckResult) :=
  if negb (language_in (language connector) (applies_to_connector_languages self))
  then Returns (Some (skip (name self)
                        ("Check does not apply to "
                         ++ language_value (language connector) ++ " connectors")))
  else _run self w connector.

(** [return self.create_check_result(passed, message)] *)
Definition result (self_name : string) (passed : bool) (msg : string)
  : Outcome (option CheckResult) :=
  Returns (Some (create_check_result self_name passed msg)).

Definition check_of (check_name : string) (check_category : CheckCategory)
  (languages : list ConnectorLanguage)
  (body : World -> Connector -> Outcome (option CheckResult)) : Check :=
  {| name := check_name;
     category := check_category;
     required := true;
     applies_to_connector_languages := languages;
     _run := body |}.

(** ** checks.py *)

Definition nl : string := String "010" EmptyString.
Definition tab : string := String "009" EmptyString.

Module CheckMigrationGuide.

Definition name := "Breaking changes must be accompanied by a migration guide".
Definition category := DOCUMENTATION.

Definition expected_version_header_start := "## Upgrading to ".

(** The loop that records the version of every heading line. *)
Definition heading_step (ordered_heading_versions : list string) (line : string)
  : list string :=
  let stripped_line := PyStr.strip line in
  if PyStr.startswith stripped_line expected_version_header_start
  then (ordered_heading_versions
        ++ [PyStr.replace stripped_line expected_version_header_start ""])%list
  else ordered_heading_versions.

Definition heading_versions (lines : list string) : list string :=
  fold_left heading_step lines [].

Definition strs_eqb (a b : list string) : bool :=
  if list_eq_dec String.string_dec a b then true else false.

Definition _run (w : World) (connector : Connector) : Outcome (option CheckResult) :=
  let breaking_changes :=
    Py.get (Py.of_metadata (metadata connector)) ["releases"; "breakingChanges"] VNone in
  if negb (Py.truthy breaking_changes) then
    result name true "No breaking changes found. A migration guide is not required"
  else
    let missing :=
      result name false
        ("Migration guide file is missing for " ++ connector_name connector
         ++ ". Please create a migration guide at "
         ++ pathlib.str_opt (migration_guide_file_path connector)) in
    match migration_guide_file_path connector with
    | None => missing
    | Some migration_guide_file_path =>
        if negb (fs.exists_ (files w) migration_guide_file_path) then missing
        else
          let expected_title :=
            "# " ++ Py.str_opt (name_from_metadata connector) ++ " Migration Guide" in
          migration_guide_content <- fs.read_text (files w) migration_guide_file_path ;;
          first_line <- Py.first (PyStr.splitlines migration_guide_content) ;;
          if negb (String.eqb first_line expected_title) then
            result name false
              ("Migration guide file for " ++ technical_name connector
               ++ " does not start with the correct header. Expected '"
               ++ expected_title ++ "', got '" ++ first_line ++ "'")
          else
            keys <- Py.dict_keys breaking_changes ;;
            let ordered_breaking_changes := PyStr.sorted_reverse keys in
            let ordered_expected_headings :=
              map (fun version => expected_version_header_start ++ version)
                  ordered_breaking_changes in
            let ordered_heading_versions :=
              heading_versions (PyStr.splitlines migration_guide_content) in
            if negb (strs_eqb ordered_breaking_changes ordered_heading_versions) then
              result name false
                (nl ++ "Migration guide file for " ++ connector_name connector
                 ++ " has incorrect version headings." ++ nl
                 ++ "Check for missing, extra, or misordered headings, or headers with typos."
                 ++ nl ++ "Expected headings: "
                 ++ Py.repr_strs ordered_expected_headings ++ nl)
            else result name true "The migration guide is correctly templated"
    end.

Definition check : Check := check_of name category ALL_LANGUAGES _run.

End CheckMigrationGuide.

Module CheckDocumentationExists.

Definition name := "Connectors must have user facing documentation".
Definition category := DOCUMENTATION.

Definition doc_exists (w : World) (connector : Connector) : bool :=
  match documentation_file_path connector with
  | Some p => fs.exists_ (files w) p
  | None => false
  end.

Definition _run (w : World) (connector : Connector) : Outcome (option CheckResult) :=
  if negb (doc_exists w connector) then
    result name false
      ("User facing documentation file "
       ++ pathlib.str_opt (documentation_file_path connector)
       ++ " is missing. Please create it")
  else
    result name true
      ("User facing documentation file "
       ++ pathlib.str_opt (documentation_file_path connector) ++ " exists").

Definition check : Check := check_of name category ALL_LANGUAGES _run.

End CheckDocumentationExists.

Module CheckDocumentationStructure.

Definition name := "Connectors documentation follows our guidelines".
Definition category := DOCUMENTATION.

Definition name_error :=
  "The connector name is not used as the main header in the documentation".

Definition expected_sections : list string :=
  ["## Prerequisites"; "## Setup guide"; "## Supported sync modes";
   "## Supported streams"; "## Changelog"].

Definition section_error (expected_section : string) : string :=
  "Connector documentation is missing a '"
  ++ PyStr.strip (PyStr.replace expected_section "#" "") ++ "' section".

(** The loop over the expected sections. *)
Definition section_step (doc_lines : list string) (errors : list string)
  (expected_section : string) : list string :=
  if negb (PyStr.mem (PyStr.lower expected_section) doc_lines)
  then (errors ++ [section_error expected_section])%list
  else errors.

(** [open(None)] raises [TypeError]. *)
Definition open_read (w : World) (p : option Path) : Outcome string :=
  match p with
  | None => Raises TypeError
  | Some p => fs.read_text (files w) p
  end.

Definition metadata_truthy (m : option PyDict) : bool := Py.truthy (Py.of_metadata m).

Definition _run (w : World) (connector : Connector) : Outcome (option CheckResult) :=
  content <- open_read w (documentation_file_path connector) ;;
  let doc_lines := map PyStr.lower (PyStr.splitlines content) in
  first <- Py.first doc_lines ;;
  let errors : list string :=
    if negb (PyStr.startswith first "# ") then [name_error] else [] in
  errors <-
    (if metadata_truthy (metadata connector) then
       name_value <- Py.getitem (Py.of_metadata (metadata connector)) "name" ;;
       lowered <- Py.lower name_value ;;
       Returns (if negb (String.eqb (PyStr.strip first) ("# " ++ lowered))
                then (errors ++ [name_error])%list else errors)
     else
       Returns (if negb (PyStr.startswith first "# ")
                then (errors ++ [name_error])%list else errors)) ;;
  let errors := fold_left (section_step doc_lines) expected_sections errors in
  match errors with
  | _ :: _ =>
      result name false
        ("Connector documentation does not follow the guidelines. "
         ++ PyStr.join ". " errors)
  | [] => result name true "Documentation guidelines are followed"
  end.

Definition check : Check := check_of name category ALL_LANGUAGES _run.

End CheckDocumentationStructure.

Module CheckChangelogEntry.

Definition name := "Connectors must have a changelog entry for each version".
Definition category := DOCUMENTATION.

(** The loop state is [(after_changelog, entry_found)]. *)
Definition line_step (version : string) (st : bool * bool) (line : string)
  : bool * bool :=
  let (after_changelog, entry_found) := st in
  let after_changelog :=
    if PyStr.contains (PyStr.lower line) "# changelog" then true else after_changelog in
  let entry_found :=
    if after_changelog && PyStr.contains line version then true else entry_found in
  (after_changelog, entry_found).

Definition _run (w : World) (connector : Connector) : Outcome (option CheckResult) :=
  let missing :=
    result name false
      ("User facing documentation file "
       ++ pathlib.str_opt (documentation_file_path connector)
       ++ " is missing. Please create it.") in
  match documentation_file_path connector with
  | None => missing
  | Some p =>
      if negb (fs.exists_ (files w) p) then missing
      else
        content <- fs.read_text (files w) p ;;
        let doc_lines := PyStr.splitlines content in
        let (_, entry_found) :=
          fold_left (line_step (version connector)) doc_lines (false, false) in
        if negb entry_found then
          result name false
            ("Changelog entry for version " ++ version connector
             ++ " is missing in the documentation")
        else result name true "Changelog entry found"
  end.

Definition check : Check := check_of name category ALL_LANGUAGES _run.

End CheckChangelogEntry.

Module CheckConnectorIconIsAvailable.

Definition name := "Connectors must have an icon".
Definition category := ASSETS.

Definition _run (w : World) (connector : Connector) : Outcome (option CheckResult) :=
  let found :=
    match icon_path connector with
    | Some p => fs.exists_ (files w) p
    | None => false
    end in
  if negb found then
    result name false
      ("Icon file " ++ pathlib.str_opt (icon_path connector) ++ " is missing")
  else result name true "Icon file exists".

Definition check : Check := check_of name category ALL_LANGUAGES _run.

End CheckConnectorIconIsAvailable.

Module CheckConnectorUsesHTTPSOnly.

Definition name := "Connectors must use HTTPS only".
Definition category := SECURITY.
Definition ignore_comment := "# ignore-https-check".

Definition ignored_directories_for_https_checks : list string :=
  [".venv"; "tests"; "unit_tests"; "integration_tests"; "build"; "source-file";
   ".pytest_cache"; "acceptance_tests_logs"; ".hypothesis"; ".ruff_cache"].

Definition ignored_file_name_pattern_for_https_checks : list string :=
  ["*Test.java"; "*.jar"; "*.pyc"; "*.gz"; "*.svg"; "expected_records.jsonl";
   "expected_records.json"].

Definition ignored_url_prefixes : list string :=
  ["http://json-schema.org"; "http://localhost"].

Definition ignored (path : Path) (ignored_directories ignored_filename_patterns : list string)
  : bool :=
  let ignore_directory :=
    existsb (fun ignored_directory => PyStr.mem ignored_directory path)
            ignored_directories in
  let ignore_filename :=
    existsb (fun ignored_filename_pattern => pathlib.match_ path ignored_filename_pattern)
            ignored_filename_patterns in
  ignore_directory || ignore_filename.

(** The lines one path contributes to the generator. *)
Definition lines_of_path (w : World) (ignored_directories ignored_filename_patterns : list string)
  (path : Path) : list (Path * string) :=
  if fs.is_file (files w) path
     && negb (ignored path ignored_directories ignored_filename_patterns)
  then
    match fs.lookup (files w) path with
    | Some (File c) => map (fun line => (path, line)) (fs.lines_read c)
    | _ => []
    end
  else [].

Definition _read_all_files_in_directory (w : World) (directory : Path)
  (ignored_directories ignored_filename_patterns : list string) : list (Path * string) :=
  flat_map (lines_of_path w ignored_directories ignored_filename_patterns)
           (fs.rglob (files w) directory).

Definition language_comments : list (string * string) :=
  [(".py", "#"); (".yml", "#"); (".yaml", "#"); (".java", "//"); (".md", "<!--")].

Fixpoint comment_for (table : list (string * string)) (suffix : string) : option string :=
  match table with
  | [] => None
  | (ext, c) :: table' => if String.eqb suffix ext then Some c else comment_for table' suffix
  end.

Definition _line_is_comment (line : string) (file_path : Path) : bool :=
  match comment_for language_comments (pathlib.suffix file_path) with
  | None => false
  | Some denote_comment =>
      let trimmed_line := PyStr.lstrip line in
      PyStr.startswith trimmed_line denote_comment
  end.

Definition strip_prefixes (prefixes : list string) (line : string) : string :=
  fold_left (fun line prefix => PyStr.replace line prefix "") prefixes line.

(** The body of the loop of [_run] for one line: does it add its file? *)
Definition line_has_http (w : World) (filename : Path) (line : string) : bool :=
  let line := PyStr.lower line in
  if _line_is_comment line filename then false
  else if PyStr.contains line ignore_comment then false
  else
    let line := strip_prefixes (set_iter w ignored_url_prefixes) line in
    PyStr.contains line "http://".

Definition file_step (w : World) (files_with_http_url : list string)
  (item : Path * string) : list string :=
  let (filename, line) := item in
  if line_has_http w filename line
  then set_add (pathlib.str filename) files_with_http_url
  else files_with_http_url.

Definition files_with_http_url (w : World) (connector : Connector) : list string :=
  fold_left (file_step w)
    (_read_all_files_in_directory w (code_directory connector)
       ignored_directories_for_https_checks
       ignored_file_name_pattern_for_https_checks)
    [].

Definition _run (w : World) (connector : Connector) : Outcome (option CheckResult) :=
  let found := files_with_http_url w connector in
  match found with
  | _ :: _ =>
      let joined := PyStr.join (nl ++ tab ++ "- ") (set_iter w found) in
      result name false
        ("The following files have http:// URLs:" ++ nl ++ tab ++ "- " ++ joined)
  | [] => result name true "No file with http:// URLs found"
  end.

Definition check : Check := check_of name category ALL_LANGUAGES _run.

End CheckConnectorUsesHTTPSOnly.

Module CheckConnectorUsesPoetry.

Definition name := "Connectors must use Poetry for dependency management".
Definition category := CODE_QUALITY.
Definition applies_to_connector_languages := [PYTHON; LOW_CODE].

Definition _run (w : World) (connector : Connector) : Outcome (option CheckResult) :=
  let here file_name :=
    fs.exists_ (files w) (pathlib.div (code_directory connector) file_name) in
  if negb (here consts.PYPROJECT_FILE_NAME) then
    result name false "pyproject.toml file is missing"
  else if negb (here consts.POETRY_LOCK_FILE_NAME) then
    result name false "poetry.lock file is missing"
  else if here consts.SETUP_PY_FILE_NAME then
    result name false "setup.py file exists. Please remove it and use pyproject.toml instead"
  else result name true "Poetry is used for dependency management".

Definition check : Check := check_of name category applies_to_connector_languages _run.

End CheckConnectorUsesPoetry.

Module CheckConnectorUsesPythonBaseImage.

Definition name :=
  "Python connectors must not use a " ++ consts.DOCKERFILE_NAME
  ++ " and must declare their base image in " ++ consts.METADATA_FILE_NAME ++ " file".
Definition category := SECURITY.
Definition applies_to_connector_languages := [PYTHON; LOW_CODE].

Definition _run (w : World) (connector : Connector) : Outcome (option CheckResult) :=
  let dockerfile_path := pathlib.div (code_directory connector) consts.DOCKERFILE_NAME in
  if fs.exists_ (files w) dockerfile_path then
    result name false
      (consts.DOCKERFILE_NAME
       ++ " file exists. Please remove it and declare the base image in "
       ++ consts.METADATA_FILE_NAME
       ++ " file with the `connectorBuildOptions.baseImage` key")
  else if negb (Py.truthy (Py.of_metadata (metadata connector))) then
    result name false (consts.METADATA_FILE_NAME ++ " file is missing")
  else if negb (Py.truthy (Py.get (Py.of_metadata (metadata connector))
                             ["connectorBuildOptions"; "baseImage"] VNone)) then
    result name false
      ("connectorBuildOptions.baseImage key is missing in "
       ++ consts.METADATA_FILE_NAME ++ " file")
  else result name true "Connector uses the Python connector base image".

Definition check : Check := check_of name category applies_to_connector_languages _run.

End CheckConnectorUsesPythonBaseImage.

Module ValidateMetadata.

Definition name := "Connectors must have valid metadata".
Definition category := ASSETS.
Definition required_env_vars : list string := ["DOCKERHUB_USERNAME"; "DOCKERHUB_PASSWORD"].

(** The loop over the required variables. *)
Fixpoint require_env (vars : list string) (environ : list string) : Outcome unit :=
  match vars with
  | [] => Returns tt
  | env_var :: vars' =>
      if negb (PyStr.mem env_var environ) then
        Raises (ValueError ("Environment variable " ++ env_var
                            ++ " is required for this check"))
      else require_env vars' environ
  end.

Definition _run (w : World) (connector : Connector) : Outcome (option CheckResult) :=
  _ <- require_env (set_iter w required_env_vars) (environ w) ;;
  let metadata_file_path := pathlib.div (code_directory connector) consts.METADATA_FILE_NAME in
  if negb (fs.exists_ (files w) metadata_file_path) then
    result name false (consts.METADATA_FILE_NAME ++ " file is missing")
  else
    match documentation_file_path connector with
    | Some documentation_file_path =>
        if fs.exists_ (files w) documentation_file_path then
          r <- validate_metadata w metadata_file_path documentation_file_path ;;
          let (exit_code, output) := r in
          if (exit_code =? 0)%Z then result name true "Metadata file is valid"
          else result name false ("Metadata file is invalid: " ++ output)
        else
          result name false
            ("User facing documentation file " ++ pathlib.str documentation_file_path
             ++ " is missing. Please create it")
    | None =>
        result name false
          "User facing documentation file None is missing. Please create it"
    end.

Definition check : Check := check_of name category ALL_LANGUAGES _run.

End ValidateMetadata.

Module CheckPublishToPyPiIsEnabled.

Definition name := "Python connectors must have PyPi publishing enabled".
Definition category := CODE_QUALITY.
Definition applies_to_connector_languages := [PYTHON; LOW_CODE].

Definition _run (w : World) (connector : Connector) : Outcome (option CheckResult) :=
  if negb (Py.truthy (Py.of_metadata (metadata connector))) then
    result name false (consts.METADATA_FILE_NAME ++ " file is missing")
  else
    let publish_to_pypi_is_enabled :=
      Py.get (Py.of_metadata (metadata connector))
             ["remoteRegistries"; "pypi"; "enabled"] (VBool false) in
    if negb (Py.truthy publish_to_pypi_is_enabled) then
      result name false
        "PyPi publishing is not enabled. Please enable it in the metadata file"
    else result name true "PyPi publishing is enabled".

Definition check : Check := check_of name category applies_to_connector_languages _run.

End CheckPublishToPyPiIsEnabled.

Module CheckConnectorLicense.

Definition name := "Connectors must be licensed under MIT or Elv2".
Definition category := CODE_QUALITY.

(** [v != s] for a string [s]: only the same string is equal to it. *)
Definition ne_str (v : PyVal) (s : string) : bool :=
  match v with
  | VStr t => negb (String.eqb t s)
  | _ => true
  end.

Definition _run (w : World) (connector : Connector) : Outcome (option CheckResult) :=
  if negb (Py.truthy (Py.of_metadata (metadata connector))) then
    result name false (consts.METADATA_FILE_NAME ++ " file is missing")
  else
    let metadata_license := Py.get (Py.of_metadata (metadata connector)) ["license"] VNone in
    upper <- Py.upper metadata_license ;;
    if negb (PyStr.mem upper ["MIT"; "ELV2"]) then
      result name false
        ("Connector is licensed under " ++ Py.str metadata_license
         ++ ". Please use MIT or Elv2 license")
    else
      let pyproject_path := pathlib.div (code_directory connector) consts.PYPROJECT_FILE_NAME in
      if language_in (language connector) [LOW_CODE; PYTHON]
         && fs.exists_ (files w) pyproject_path
      then
        pyproject <- toml_load w pyproject_path ;;
        let poetry_license := Py.get pyproject ["tool"; "poetry"; "license"] VNone in
        if Py.truthy poetry_license then
          if ne_str poetry_license (Py.str metadata_license) then
            result name false
              ("Connector is licensed under " ++ Py.str poetry_license ++ " in "
               ++ consts.PYPROJECT_FILE_NAME ++ ", but licensed under "
               ++ Py.str metadata_license ++ " in " ++ consts.METADATA_FILE_NAME
               ++ ". These two files have to be consistent")
          else result name true "Connector is licensed under MIT or ELv2 license"
        else
          result name false
            ("Connector is missing license in " ++ consts.PYPROJECT_FILE_NAME
             ++ ". Please add it")
      else result name true "Connector is licensed under MIT or ELv2 license".

Definition check : Check := check_of name category ALL_LANGUAGES _run.

End CheckConnectorLicense.

Module CheckVersionFollowsSemver.

Definition name := "Connector version must follow Semantic Versioning".
Definition category := CODE_QUALITY.

(** The body of the [try] block: [Returns (Some r)] when it reaches a
    [return], [Returns None] when it runs to its end. *)
Definition try_body (w : World) (connector : Connector) (tag : PyVal)
  : Outcome (option CheckResult) :=
  metadata_version <- semver.parse (Py.str tag) ;;
  let pyproject_path := pathlib.div (code_directory connector) consts.PYPROJECT_FILE_NAME in
  if language_in (language connector) [LOW_CODE; PYTHON]
     && fs.exists_ (files w) pyproject_path
  then
    pyproject <- toml_load w pyproject_path ;;
    tool <- Py.getitem pyproject "tool" ;;
    poetry <- Py.getitem tool "poetry" ;;
    version_value <- Py.getitem poetry "version" ;;
    poetry_version <- semver.parse (Py.str version_value) ;;
    if semver.ne metadata_version poetry_version then
      result name false
        ("Connector version in " ++ consts.METADATA_FILE_NAME ++ " is "
         ++ semver.str metadata_version ++ ", but version in "
         ++ consts.PYPROJECT_FILE_NAME ++ " is " ++ semver.str poetry_version
         ++ ". These two files have to be consistent")
    else Returns None
  else Returns None.

(** After the [try] statement the function ends: nothing is returned when the
    block ran to its end. *)
Definition _run (w : World) (connector : Connector) : Outcome (option CheckResult) :=
  match metadata connector with
  | None =>
      result name false ("Connector version is missing in " ++ consts.METADATA_FILE_NAME)
  | Some md =>
      match Py.lookup "dockerImageTag" md with
      | None => result name false ("dockerImageTag is missing in " ++ consts.METADATA_FILE_NAME)
      | Some tag =>
          try_except_ValueError
            (try_body w connector tag)
            (result name false
               ("Connector version " ++ Py.str tag
                ++ " does not follow Semantic Versioning"))
      end
  end.

Definition check : Check := check_of name category ALL_LANGUAGES _run.

End CheckVersionFollowsSemver.

(** ** __init__.py *)

Definition ENABLED_CHECKS : list Check :=
  [ ValidateMetadata.check;
    CheckDocumentationExists.check;
    CheckDocumentationStructure.check;
    CheckChangelogEntry.check;
    CheckMigrationGuide.check;
    CheckConnectorIconIsAvailable.check;
    CheckConnectorUsesHTTPSOnly.check;
    CheckConnectorUsesPoetry.check;
    CheckConnectorUsesPythonBaseImage.check;
    CheckPublishToPyPiIsEnabled.check;
    CheckConnectorLicense.check;
    CheckVersionFollowsSemver.check ].

(** ** cli.py *)

Module cli.

(** What a run leaves behind: the results echoed, in order, and how the
    command ended. *)
Record Report : Type := {
  echoed : list (option CheckResult);
  exit : Outcome unit
}.

(** The loop over the pairs: the results appended and echoed, and the
    exception that stopped the loop, if one did. *)
Fixpoint evaluate (w : World) (pairs : list (Connector * Check))
  : list (option CheckResult) * option PyExn :=
  match pairs with
  | [] => ([], None)
  | (connector, check) :: pairs' =>
      match run check w connector with
      | Raises e => ([], Some e)
      | Returns check_result =>
          let (check_results, stopped) := evaluate w pairs' in
          (check_result :: check_results, stopped)
      end
  end.

(** The comprehension that keeps the failed results; reading [.status] of
    [None] raises [AttributeError]. *)
Fixpoint failed_checks (check_results : list (option CheckResult))
  : Outcome (list CheckResult) :=
  match check_results with
  | [] => Returns []
  | None :: _ => Raises AttributeError
  | Some check_result :: rest =>
      failed <- failed_checks rest ;;
      Returns (if status_eqb (status check_result) FAILED
               then check_result :: failed else failed)
  end.

(** The connectors of a run: the set of the normalised names, resolved. *)
Definition connectors_of (w : World) (connectors : list string) : list Connector :=
  map (resolve w)
      (set_iter w (nodup String.string_dec (map remove_strict_encrypt_suffix connectors))).

Definition run_checks (w : World) (registry : list Check) (connectors : list string)
  : Report :=
  let connectors := connectors_of w connectors in
  let (check_results, stopped) := evaluate w (list_prod connectors registry) in
  {| echoed := check_results;
     exit :=
       match stopped with
       | Some e => Raises e
       | None =>
           failed <- failed_checks check_results ;;
           match failed with
           | _ :: _ =>
               Raises (ClickException
                         (Py.str_of_Z (Z.of_nat (List.length failed)) ++ " checks failed"))
           | [] => Returns tt
           end
       end |}.

Definition run (w : World) (connectors : list string) : Report :=
  run_checks w ENABLED_CHECKS connectors.

End cli.

(** * Notions used to state the properties *)

(** ** Texts *)

(** [x] cannot start before the end of a text [v] placed in front of [rest]:
    no proper, non-empty end of [v] followed by [rest] starts with [x]. *)
Definition starts_clear (x rest : string) : Prop :=
  forall v : string,
    v <> "" -> String.length v < String.length x ->
    PyStr.startswith (v ++ rest) x = false.

Fixpoint last_char (s : string) : option ascii :=
  match s with
  | EmptyString => None
  | String c s' =>
      match last_char s' with
      | Some d => Some d
      | None => Some c
      end
  end.

(** The name made of the given parts, each one followed by [suffix]. *)
Fixpoint each_followed_by (suffix : string) (parts : list string) : string :=
  match parts with
  | [] => ""
  | p :: ps => p ++ suffix ++ each_followed_by suffix ps
  end.

Fixpoint concat_all (parts : list string) : string :=
  match parts with
  | [] => ""
  | p :: ps => p ++ concat_all ps
  end.

(** The characters of the comment markers are no letters: lowering a
    character neither makes nor unmakes one of them. *)
Definition caseless (d : ascii) : Prop :=
  forall c : ascii, Ascii.eqb (PyStr.lower_char c) d = Ascii.eqb c d.

Fixpoint all_caseless (m : string) : Prop :=
  match m with
  | EmptyString => True
  | String d m' => caseless d /\ all_caseless m'
  end.

(** ** Outcomes of a check *)

(** An outcome that is not a skipped result. *)
Definition not_skipping (o : Outcome (option CheckResult)) : Prop :=
  match o with
  | Returns (Some r) => status r <> SKIPPED
  | _ => True
  end.

(** An outcome that is not a passed or skipped result. *)
Definition never_passing (o : Outcome (option CheckResult)) : Prop :=
  match o with
  | Returns (Some r) => status r = FAILED
  | _ => True
  end.


Definition skip_message (conn : Connector) : string :=
  "Check does not apply to " ++ language_value (language conn) ++ " connectors".

Definition env_var_required (env_var : string) : PyExn :=
  ValueError ("Environment variable " ++ env_var ++ " is required for this check").

(** ** The run *)

Definition is_failed (r : CheckResult) : bool := status_eqb (status r) FAILED.

Definition checks_failed (n : nat) : PyExn :=
  ClickException (Py.str_of_Z (Z.of_nat n) ++ " checks failed").

(** How the command ends once every pair has given the results [results]. *)
Definition verdict (results : list CheckResult) : Outcome unit :=
  let failed := filter is_failed results in
  match failed with
  | _ :: _ => Raises (checks_failed (List.length failed))
  | [] => Returns tt
  end.

(** The pair [pc] evaluates to the returned value [o]. *)
Definition evaluates_to (w : World) (pc : Connector * Check)
  (o : option CheckResult) : Prop :=
  run (snd pc) w (fst pc) = Returns o.

(** ** The migration guide *)

Definition guide_title (conn : Connector) : string :=
  "# " ++ Py.str_opt (name_from_metadata conn) ++ " Migration Guide".

Definition is_heading (line : string) : bool :=
  PyStr.startswith (PyStr.strip line) CheckMigrationGuide.expected_version_header_start.

Definition incorrect_headings_message (conn : Connector) (keys : list string) : string :=
  nl ++ "Migration guide file for " ++ connector_name conn
  ++ " has incorrect version headings." ++ nl
  ++ "Check for missing, extra, or misordered headings, or headers with typos."
  ++ nl ++ "Expected headings: "
  ++ Py.repr_strs (map (fun version => CheckMigrationGuide.expected_version_header_start ++ version)
                       (PyStr.sorted_reverse keys)) ++ nl.

(** A version as a heading line shows it: not empty, not ending with white
    space and not holding the heading text again. *)
Definition plain_version (v : string) : Prop :=
  PyStr.rstrip v = v /\ v <> ""
  /\ PyStr.contains v CheckMigrationGuide.expected_version_header_start = false.

(** The heading line of a version. *)
Definition heading_line (v : string) : string :=
  CheckMigrationGuide.expected_version_header_start ++ v.

(** ** The scan for URLs *)

Definition json_schema := "http://json-schema.org".
Definition localhost := "http://localhost".


Definition scanned (w : World) (conn : Connector) : list (Path * string) :=
  CheckConnectorUsesHTTPSOnly._read_all_files_in_directory w (code_directory conn)
    CheckConnectorUsesHTTPSOnly.ignored_directories_for_https_checks
    CheckConnectorUsesHTTPSOnly.ignored_file_name_pattern_for_https_checks.

(** ** The documentation *)

(** What the check asks of the first line [first] of the lowered
    documentation: with metadata, that it starts with "# " and that, stripped,
    it is "# " followed by the lowered name; without metadata, that it starts
    with "# ".  No answer when the metadata has no name or a name that is not
    a string, where the check raises. *)
Definition name_heading_rule (conn : Connector) (first : string) : option bool :=
  if CheckDocumentationStructure.metadata_truthy (metadata conn) then
    match Py.getitem (Py.of_metadata (metadata conn)) "name" with
    | Returns (VStr n) =>
        Some (PyStr.startswith first "# "
              && String.eqb (PyStr.strip first) ("# " ++ PyStr.lower n))
    | _ => None
    end
  else Some (PyStr.startswith first "# ").

(** The expected sections that are no line of the lowered documentation. *)
Definition missing_sections (doc_lines : list string) : list string :=
  filter (fun section => negb (PyStr.mem (PyStr.lower section) doc_lines))
         CheckDocumentationStructure.expected_sections.

(** The first line that is not blank, as the specification words the rule. *)
Definition first_non_blank (lines : list string) : option string :=
  find (fun l => negb (String.eqb (PyStr.strip l) "")) lines.

(** ** Sample connectors *)

Module Sample.

Definition code_dir : Path := ["airbyte-integrations"; "connectors"; "source-foo"].
Definition doc_path : Path := ["docs"; "integrations"; "sources"; "foo.md"].
Definition guide_path : Path := ["docs"; "integrations"; "sources"; "foo-migrations.md"].

Definition connector (lang : ConnectorLanguage) (md : option PyDict) : Connector :=
  {| technical_name := "source-foo";
     connector_name := "foo";
     name_from_metadata := Some "Foo";
     language := lang;
     metadata := md;
     code_directory := code_dir;
     documentation_file_path := Some doc_path;
     migration_guide_file_path := Some guide_path;
     icon_path := Some (pathlib.div code_dir "icon.svg");
     version := "1.2.3" |}.

(** A world with the given files and environment, in which sets are iterated
    in the order they were built, the manifest parses to [pyproject] and the
    metadata validator accepts. *)
Definition world (t : FS) (env : list string) (pyproject : PyVal)
  (conn : Connector) : World :=
  {| files := t;
     environ := env;
     set_iter := fun l => l;
     toml_load := fun _ => Returns pyproject;
     validate_metadata := fun _ _ => Returns (0%Z, "");
     resolve := fun _ => conn |}.

Definition breaking (versions : list string) : PyDict :=
  [("name", VStr "Foo");
   ("releases",
    VDict [("breakingChanges",
            VDict (map (fun v => (v, VDict [("message", VStr "see the guide")]))
                       versions))])].

Definition guide (headings : list string) : string :=
  "# Foo Migration Guide" ++ nl ++ nl
  ++ concat_all (map (fun v => "## Upgrading to " ++ v ++ nl ++ "Do this." ++ nl)
                     headings).

Definition guide_world (headings : list string) (conn : Connector) : World :=
  world [(guide_path, File (Text (guide headings)))] [] VNone conn.

Definition manifest_path : Path := pathlib.div code_dir consts.PYPROJECT_FILE_NAME.

Definition pyproject (manifest_version : string) : PyVal :=
  VDict [("tool",
          VDict [("poetry",
                  VDict [("name", VStr "source-foo");
                         ("version", VStr manifest_version);
                         ("license", VStr "MIT")])])].

Definition tagged (lang : ConnectorLanguage) (tag : string) : Connector :=
  connector lang (Some [("name", VStr "Foo"); ("dockerImageTag", VStr tag);
                        ("license", VStr "MIT")]).

(** A world where the connector has a manifest with the given version. *)
Definition manifest_world (manifest_version : string) (conn : Connector) : World :=
  world [(manifest_path, File (Text "[tool.poetry]"))] []
        (pyproject manifest_version) conn.

(** A world whose only file is the documentation, with the given text. *)
Definition doc_world (text : string) (env : list string) (conn : Connector) : World :=
  world [(doc_path, File (Text text))] env VNone conn.

Definition unlicensed : Connector := connector JAVA (Some [("name", VStr "Foo")]).

Definition credentials : list string := ["DOCKERHUB_USERNAME"; "DOCKERHUB_PASSWORD"].

Definition java : Connector := connector JAVA None.

Definition named : Connector := connector JAVA (Some [("name", VStr "Foo")]).

(** Connectors whose metadata has no name, and a name that is no string. *)
Definition nameless : Connector := connector JAVA (Some [("license", VStr "MIT")]).
Definition misnamed : Connector := connector JAVA (Some [("name", VInt 7)]).

Definition sections : string :=
  "## Prerequisites" ++ nl ++ "## Setup guide" ++ nl ++ "## Supported sync modes" ++ nl
  ++ "## Supported streams" ++ nl ++ "## Changelog" ++ nl.

Definition good_doc : string := "# Foo" ++ nl ++ sections.

(** The same documentation after one blank line. *)
Definition late_doc : string := nl ++ good_doc.

Definition source_path : Path := ["airbyte-integrations"; "connectors"; "source-foo";
                                  "source_foo"; "source.py"].


(** A world whose only file is one source file of the connector. *)
Definition code_world (path : Path) (text : string) (conn : Connector) : World :=
  world [(path, File (Text text))] [] VNone conn.

Definition plain_line : string := "URL = 'http://example.com/api'".


(** A world where the manifest of the connector is not valid TOML. *)
Definition broken_manifest_world (conn : Connector) : World :=
  {| files := [(manifest_path, File (Text "not toml"))];
     environ := [];
     set_iter := fun l => l;
     toml_load := fun _ => Raises TomlDecodeError;
     validate_metadata := fun _ _ => Returns (0%Z, "");
     resolve := fun _ => conn |}.

(** A world with the metadata file and the documentation of the connector. *)
Definition published_world (conn : Connector) : World :=
  world [(pathlib.div code_dir consts.METADATA_FILE_NAME, File (Text "data"));
         (doc_path, File (Text good_doc))]
        credentials VNone conn.

Definition upgraded_3 : Connector :=
  connector PYTHON (Some (breaking ["1.0.0"; "2.0.0"; "3.0.0"])).

Definition upgraded_10 : Connector :=
  connector PYTHON (Some (breaking ["10.0.0"; "9.0.0"])).

End Sample.

(** ** cli.py: the grouping of generate_documentation *)

Definition category_eqb (a b : CheckCategory) : bool :=
  match a, b with
  | CODE_QUALITY, CODE_QUALITY | DOCUMENTATION, DOCUMENTATION
  | ASSETS, ASSETS | SECURITY, SECURITY => true
  | _, _ => false
  end.

(** [d.setdefault(key, []).append(check)] on a dictionary that keeps its keys
    in the order of their insertion. *)
Fixpoint setdefault_append (key : CheckCategory) (check : Check)
  (d : list (CheckCategory * list Check)) : list (CheckCategory * list Check) :=
  match d with
  | [] => [(key, [check])]
  | (k, checks) :: d' =>
      if category_eqb key k then (k, (checks ++ [check])%list) :: d'
      else (k, checks) :: setdefault_append key check d'
  end.

(** The loop of [generate_documentation] that builds [checks_by_category];
    the rendering of the template and the writing of the file are left to
    their libraries. *)
Definition checks_by_category (registry : list Check)
  : list (CheckCategory * list Check) :=
  fold_left (fun d check => setdefault_append (category check) check d) registry [].

Fixpoint group_of (key : CheckCategory) (d : list (CheckCategory * list Check))
  : option (list Check) :=
  match d with
  | [] => None
  | (k, checks) :: d' => if category_eqb key k then Some checks else group_of key d'
  end.

(** ** Further notions *)

(** No element is followed by a larger one, in the order of the strings. *)
Fixpoint descending (l : list string) : Prop :=
  match l with
  | [] => True
  | x :: l' =>
      match l' with
      | [] => True
      | y :: _ => String.ltb x y = false
      end /\ descending l'
  end.

(** An outcome that is a passed or failed result. *)
Definition decided (o : Outcome (option CheckResult)) : Prop :=
  match o with
  | Returns (Some r) => status r = PASSED \/ status r = FAILED
  | _ => False
  end.

Definition passes (o : Outcome (option CheckResult)) : Prop :=
  exists r, o = Returns (Some r) /\ status r = PASSED.

Definition fails (o : Outcome (option CheckResult)) : Prop :=
  exists r, o = Returns (Some r) /\ status r = FAILED.

Definition is_changelog_heading (line : string) : bool :=
  PyStr.contains (PyStr.lower line) "# changelog".

(** Some line from the first changelog heading on holds [version]. *)
Fixpoint entry_after_heading (version : string) (lines : list string) : bool :=
  match lines with
  | [] => false
  | l :: ls =>
      if is_changelog_heading l
      then existsb (fun x => PyStr.contains x version) (l :: ls)
      else entry_after_heading version ls
  end.

(** The licence is MIT or ELv2, in any letter case. *)
Definition accepted_licence (l : string) : bool :=
  PyStr.mem (PyStr.upper l) ["MIT"; "ELV2"].

(** * Facts about the string methods *)

Section StringFacts.

Import PyStr.

Lemma append_nil_r (s : string) : s ++ "" = s.
Proof. induction s; simpl; congruence. Qed.

Lemma append_assoc (a b c : string) : (a ++ b) ++ c = a ++ b ++ c.
Proof. induction a; simpl; congruence. Qed.

Lemma length_append (a b : string) :
  String.length (a ++ b) = String.length a + String.length b.
Proof. induction a; simpl; congruence. Qed.

Lemma startswith_app_self (p s : string) : startswith (p ++ s) p = true.
Proof.
  induction p as [|c p IH]; simpl; [reflexivity|].
  now rewrite Ascii.eqb_refl.
Qed.

Lemma startswith_inv (p s : string) :
  startswith s p = true -> exists t, s = p ++ t.
Proof.
  revert s; induction p as [|c p IH]; intros s H; simpl in *.
  - now exists s.
  - destruct s as [|d s]; [discriminate|].
    apply andb_true_iff in H as [Hc Hs].
    apply Ascii.eqb_eq in Hc; subst d.
    destruct (IH _ Hs) as [t ->]. now exists t.
Qed.

Lemma startswith_long (p a r : string) :
  String.length p <= String.length a ->
  startswith (a ++ r) p = startswith a p.
Proof.
  revert a; induction p as [|c p IH]; intros a Hlen; simpl; [reflexivity|].
  destruct a as [|d a]; simpl in *; [lia|].
  rewrite IH by lia. reflexivity.
Qed.

Lemma startswith_shorter (p q s : string) :
  startswith s (p ++ q) = true -> startswith s p = true.
Proof.
  revert s; induction p as [|c p IH]; intros s H; simpl in *; [reflexivity|].
  destruct s as [|d s]; [discriminate|].
  apply andb_true_iff in H as [Hc Hs]. rewrite Hc. simpl. now apply IH.
Qed.

Lemma contains_startswith (s p : string) :
  contains s p = false -> startswith s p = false.
Proof. destruct s; simpl; intros H; apply orb_false_iff in H; tauto. Qed.

Lemma contains_tail (c : ascii) (s p : string) :
  contains (String c s) p = false -> contains s p = false.
Proof. simpl. intros H. apply orb_false_iff in H. tauto. Qed.

Lemma contains_app_r (a s p : string) :
  contains s p = true -> contains (a ++ s) p = true.
Proof.
  intros H. induction a as [|c a IH]; simpl; [assumption|].
  rewrite IH. apply orb_true_r.
Qed.

Lemma contains_here (s p : string) : startswith s p = true -> contains s p = true.
Proof. destruct s; simpl; intros ->; reflexivity. Qed.

Lemma contains_app_l (s b p : string) :
  contains s p = true -> contains (s ++ b) p = true.
Proof.
  induction s as [|c s IH]; intros H.
  - simpl in H. rewrite orb_false_r in H.
    apply startswith_inv in H as [t Ht].
    destruct p; [|discriminate]. apply contains_here. reflexivity.
  - simpl in H. apply orb_true_iff in H as [H|H].
    + apply startswith_inv in H as [t Ht]. rewrite Ht, append_assoc.
      apply contains_here, startswith_app_self.
    + change (String c s ++ b) with (String c (s ++ b)).
      cbn [contains]. rewrite (IH H). apply orb_true_r.
Qed.

Lemma contains_mid (a p b : string) : contains (a ++ p ++ b) p = true.
Proof. apply contains_app_r, contains_here, startswith_app_self. Qed.

Lemma contains_inv (s p : string) :
  contains s p = true -> exists a b, s = a ++ p ++ b.
Proof.
  induction s as [|c s IH]; simpl; intros H.
  - rewrite orb_false_r in H. apply startswith_inv in H as [t Ht].
    exists "", t. assumption.
  - apply orb_true_iff in H as [H|H].
    + apply startswith_inv in H as [t Ht]. exists "", t. assumption.
    + destruct (IH H) as (a & b & ->). exists (String c a), b. reflexivity.
Qed.

Lemma endswith_app (a p : string) : endswith (a ++ p) p = true.
Proof.
  induction a as [|c a IH].
  - destruct p; cbn [append endswith]; rewrite String.eqb_refl; reflexivity.
  - change (String c a ++ p) with (String c (a ++ p)).
    cbn [endswith]. rewrite IH. apply orb_true_r.
Qed.

Lemma endswith_inv (s p : string) :
  endswith s p = true -> exists a, s = a ++ p.
Proof.
  induction s as [|c s IH]; cbn [endswith]; intros H.
  - rewrite orb_false_r in H. apply String.eqb_eq in H. now exists "".
  - apply orb_true_iff in H as [H|H].
    + apply String.eqb_eq in H. now exists "".
    + destruct (IH H) as [a ->]. now exists (String c a).
Qed.

(** Jumping over a match: the characters counted by [skip] are dropped. *)
Lemma replace_go_skip (old new s b : string) :
  replace_go old new (String.length s) (s ++ b) = replace_go old new 0 b.
Proof. induction s as [|c s IH]; simpl; [reflexivity | exact IH]. Qed.

Lemma replace_go_match (old new b : string) (c : ascii) :
  replace_go (String c old) new 0 (String c old ++ b)
  = new ++ replace_go (String c old) new 0 b.
Proof.
  pose proof (startswith_app_self (String c old) b) as E.
  simpl in *. rewrite E. simpl. rewrite Nat.sub_0_r.
  now rewrite replace_go_skip.
Qed.

(** A text in which [old] does not occur is left as it is. *)
Lemma replace_go_absent (old new s : string) :
  contains s old = false -> replace_go old new 0 s = s.
Proof.
  induction s as [|c s IH]; intros H; [reflexivity|].
  pose proof (contains_startswith _ _ H) as E.
  apply contains_tail in H.
  cbn [replace_go]. rewrite E, (IH H). reflexivity.
Qed.

(** The scan of a text [a] in which [old] does not occur finds nothing
    before [rest] when no match straddles the end of [a]. *)
Lemma replace_go_pass (old new a rest : string) :
  starts_clear old rest ->
  contains a old = false ->
  replace_go old new 0 (a ++ rest) = a ++ replace_go old new 0 rest.
Proof.
  intros Hclear. induction a as [|c a IH]; intros H; [reflexivity|].
  assert (E : startswith (String c a ++ rest) old = false).
  { destruct (Nat.lt_ge_cases (String.length (String c a)) (String.length old)) as [L|L].
    - apply Hclear; [discriminate | exact L].
    - rewrite startswith_long by exact L. now apply contains_startswith. }
  apply contains_tail in H.
  change (String c a ++ rest) with (String c (a ++ rest)) in *.
  cbn [replace_go]. rewrite E, (IH H). reflexivity.
Qed.

End StringFacts.

Lemma startswith_cons_app (c a : ascii) (v r p : string) :
  PyStr.startswith (String c v ++ r) (String a p)
  = Ascii.eqb c a && PyStr.startswith (v ++ r) p.
Proof. reflexivity. Qed.

(** One more character of the overlap: either it differs from what the
    searched text needs, or the text in front is used up and the rest
    decides by computation. *)
Ltac overlap_step :=
  match goal with
  | |- PyStr.startswith (?v ++ _) _ = false =>
      destruct v as [|? v];
      [ try reflexivity; try (exfalso; simpl in *; (congruence || lia))
      | rewrite startswith_cons_app;
        match goal with
        | |- (Ascii.eqb ?c ?d && _) = false =>
            destruct (Ascii.eqb_spec c d) as [->|_]; [cbn [andb]|reflexivity]
        end ]
  end.

Ltac overlap_chain :=
  intros v Hv Hlen; repeat overlap_step; exfalso; simpl in Hlen; lia.

Lemma starts_clear_strict_encrypt (b : string) :
  starts_clear "-strict-encrypt" ("-strict-encrypt" ++ b).
Proof. unfold starts_clear. overlap_chain. Qed.

Lemma starts_clear_secure (b : string) : starts_clear "-secure" ("-secure" ++ b).
Proof. unfold starts_clear. overlap_chain. Qed.

(** * utils.py: the normalisation of connector names *)

Section SuffixRemoval.

Import PyStr.

Lemma last_char_app (a p : string) : p <> "" -> last_char (a ++ p) = last_char p.
Proof.
  intros Hp. induction a as [|c a IH]; [reflexivity|].
  simpl. rewrite IH. destruct p as [|d p]; [congruence|].
  simpl. destruct (last_char p); reflexivity.
Qed.

Lemma endswith_last_char (s p : string) :
  p <> "" -> endswith s p = true -> last_char s = last_char p.
Proof.
  intros Hp H. apply endswith_inv in H as [a ->]. now apply last_char_app.
Qed.

(** No name ends with both suffixes. *)
Lemma secure_not_strict_encrypt (n : string) :
  endswith n "-secure" = true -> endswith n "-strict-encrypt" = false.
Proof.
  intros H. destruct (endswith n "-strict-encrypt") eqn:E; [|reflexivity].
  apply endswith_last_char in H; [|discriminate].
  apply endswith_last_char in E; [|discriminate].
  rewrite H in E. discriminate.
Qed.

Lemma each_followed_by_ends (suffix : string) (parts : list string) :
  parts <> [] -> endswith (each_followed_by suffix parts) suffix = true.
Proof.
  induction parts as [|p ps IH]; [congruence|]. intros _.
  destruct ps as [|q ps].
  - simpl. rewrite append_nil_r. apply endswith_app.
  - assert (H : q :: ps <> []) by discriminate.
    apply IH, endswith_inv in H as [a Ha].
    cbn [each_followed_by] in *. rewrite Ha.
    rewrite <- !append_assoc. apply endswith_app.
Qed.

Lemma starts_clear_suffix (suffix b : string) :
  In suffix strict_encrypt_suffixes -> starts_clear suffix (suffix ++ b).
Proof.
  intros [<-|[<-|[]]];
    [apply starts_clear_strict_encrypt | apply starts_clear_secure].
Qed.

Lemma replace_each_followed_by (suffix : string) (parts : list string) :
  In suffix strict_encrypt_suffixes ->
  Forall (fun p => contains p suffix = false) parts ->
  replace (each_followed_by suffix parts) suffix "" = concat_all parts.
Proof.
  intros Hin Hparts.
  assert (E : forall s, replace s suffix "" = replace_go suffix "" 0 s).
  { destruct Hin as [<-|[<-|[]]]; reflexivity. }
  rewrite E. clear E.
  induction Hparts as [|p ps Hp _ IH]; [reflexivity|].
  cbn [each_followed_by concat_all].
  rewrite replace_go_pass by (auto using starts_clear_suffix).
  f_equal.
  destruct Hin as [<-|[<-|[]]]; rewrite replace_go_match; exact IH.
Qed.

Lemma remove_when_suffix (n suffix : string) :
  In suffix strict_encrypt_suffixes ->
  endswith n suffix = true ->
  remove_strict_encrypt_suffix n = replace n suffix "".
Proof.
  unfold remove_strict_encrypt_suffix, strict_encrypt_suffixes.
  intros [<-|[<-|[]]] H; cbn [remove_suffix_loop].
  - now rewrite H.
  - now rewrite (secure_not_strict_encrypt _ H), H.
Qed.

(** C10. A technical name that ends with neither "-strict-encrypt" nor
    "-secure" is returned unchanged.  A name that ends with one of the two is
    returned with that suffix text replaced by nothing wherever [str.replace]
    finds it, not only at the end: a name made of parts that do not contain
    the suffix, each followed by the suffix, comes back as the parts alone,
    and "source-secure-db-secure" comes back as "source-db". *)
Theorem remove_strict_encrypt_suffix_removes_every_occurrence :
  (forall n : string,
      endswith n "-strict-encrypt" = false ->
      endswith n "-secure" = false ->
      remove_strict_encrypt_suffix n = n)
  /\ (forall n suffix : string,
         In suffix strict_encrypt_suffixes ->
         endswith n suffix = true ->
         remove_strict_encrypt_suffix n = replace n suffix "")
  /\ (forall (suffix : string) (parts : list string),
         In suffix strict_encrypt_suffixes ->
         parts <> [] ->
         Forall (fun p => contains p suffix = false) parts ->
         remove_strict_encrypt_suffix (each_followed_by suffix parts)
         = concat_all parts)
  /\ remove_strict_encrypt_suffix "source-secure-db-secure" = "source-db".
Proof.
  repeat split.
  - intros n H1 H2. unfold remove_strict_encrypt_suffix, strict_encrypt_suffixes.
    cbn [remove_suffix_loop]. now rewrite H1, H2.
  - apply remove_when_suffix.
  - intros suffix parts Hin Hne Hparts.
    rewrite remove_when_suffix with (suffix := suffix);
      auto using each_followed_by_ends, replace_each_followed_by.
Qed.

Lemma remove_strict_encrypt_suffix_witness :
  remove_strict_encrypt_suffix "source-google-sheets" = "source-google-sheets"
  /\ remove_strict_encrypt_suffix "source-mysql-strict-encrypt"
     = replace "source-mysql-strict-encrypt" "-strict-encrypt" ""
  /\ remove_strict_encrypt_suffix
       (each_followed_by "-secure" ["source"; "-db"]) = "source-db".
Proof.
  destruct remove_strict_encrypt_suffix_removes_every_occurrence
    as (Hkeep & Hrep & Hparts & _).
  split; [|split].
  - apply Hkeep; reflexivity.
  - apply Hrep; [simpl; auto | reflexivity].
  - apply (Hparts "-secure" ["source"; "-db"]).
    + simpl; auto.
    + discriminate.
    + repeat constructor.
Defined.

End SuffixRemoval.

(** * The migration-guide check *)

Section MigrationGuide.

Import CheckMigrationGuide.

Lemma strs_eqb_true (a b : list string) : strs_eqb a b = true <-> a = b.
Proof.
  unfold strs_eqb. destruct (list_eq_dec String.string_dec a b); split;
    congruence.
Qed.

Lemma heading_versions_from (acc lines : list string) :
  fold_left heading_step lines acc = (acc ++ heading_versions lines)%list.
Proof.
  revert acc. induction lines as [|l ls IH]; intros acc.
  - unfold heading_versions. cbn [fold_left]. now rewrite app_nil_r.
  - unfold heading_versions. cbn [fold_left]. rewrite IH, (IH (heading_step [] l)).
    unfold heading_step. destruct (PyStr.startswith _ _).
    + now rewrite <- app_assoc.
    + reflexivity.
Qed.

Lemma heading_versions_app (l1 l2 : list string) :
  heading_versions (l1 ++ l2)%list
  = (heading_versions l1 ++ heading_versions l2)%list.
Proof.
  unfold heading_versions at 1. rewrite fold_left_app.
  fold (heading_versions l1). apply heading_versions_from.
Qed.

(** Every heading line adds one version, and no other line adds any. *)
Lemma heading_versions_length (lines : list string) :
  List.length (heading_versions lines) = List.length (filter is_heading lines).
Proof.
  induction lines as [|l ls IH]; [reflexivity|].
  unfold heading_versions. cbn [fold_left filter].
  rewrite heading_versions_from, length_app, IH.
  unfold heading_step, is_heading. destruct (PyStr.startswith _ _); reflexivity.
Qed.

Lemma rstrip_app (a v : string) :
  PyStr.rstrip v <> "" -> PyStr.rstrip (a ++ v) = a ++ PyStr.rstrip v.
Proof.
  intros Hv. induction a as [|c a IH]; [reflexivity|].
  change (String c a ++ v) with (String c (a ++ v)).
  cbn [PyStr.rstrip]. rewrite IH.
  destruct (a ++ PyStr.rstrip v) eqn:E.
  - destruct a; [|discriminate]. simpl in E. congruence.
  - cbn [append]. now rewrite E.
Qed.

(** A heading line "## Upgrading to v", where [v] is not empty, does not end
    with white space and does not contain the heading text again, records
    the version [v]. *)
Lemma heading_step_plain (acc : list string) (v : string) :
  PyStr.rstrip v = v -> v <> "" ->
  PyStr.contains v expected_version_header_start = false ->
  heading_step acc (expected_version_header_start ++ v) = (acc ++ [v])%list.
Proof.
  intros Hr Hv Hfree. unfold heading_step, PyStr.strip.
  rewrite rstrip_app by congruence. rewrite Hr.
  change (PyStr.lstrip (expected_version_header_start ++ v))
    with (expected_version_header_start ++ v).
  rewrite startswith_app_self.
  unfold expected_version_header_start at 2. cbn [PyStr.replace].
  fold expected_version_header_start.
  unfold expected_version_header_start at 1 2.
  rewrite replace_go_match. fold expected_version_header_start.
  now rewrite replace_go_absent.
Qed.

(** With breaking changes declared and a guide that opens with its title, the
    verdict is the comparison of the sorted keys with the recorded versions. *)
Lemma migration_guide_verdict (w : World) (conn : Connector) (bc : PyDict)
  (p : Path) (content : string) (rest : list string) :
  Py.get (Py.of_metadata (metadata conn)) ["releases"; "breakingChanges"] VNone
  = VDict bc ->
  bc <> [] ->
  migration_guide_file_path conn = Some p ->
  fs.lookup (files w) p = Some (File (Text content)) ->
  PyStr.splitlines content = guide_title conn :: rest ->
  _run w conn =
  if strs_eqb (PyStr.sorted_reverse (Py.keys bc))
              (heading_versions (PyStr.splitlines content))
  then result name true "The migration guide is correctly templated"
  else result name false (incorrect_headings_message conn (Py.keys bc)).
Proof.
  intros Hbc Hne Hp Hfile Hlines.
  unfold _run. rewrite Hbc, Hp.
  destruct bc as [|kv bc]; [congruence|].
  cbn [Py.truthy negb].
  unfold fs.exists_, fs.read_text. rewrite Hfile. cbn [negb bind].
  rewrite Hlines. cbn [Py.first bind].
  fold (guide_title conn). rewrite String.eqb_refl. cbn [negb Py.dict_keys bind].
  destruct (strs_eqb _ _); reflexivity.
Qed.



Lemma sorted_reverse_10_9 (ks : list string) :
  Permutation ks ["10.0.0"; "9.0.0"] ->
  PyStr.sorted_reverse ks = ["9.0.0"; "10.0.0"].
Proof.
  intros H.
  assert (Hnd : NoDup ks).
  { apply (Permutation_NoDup (Permutation_sym H)).
    repeat constructor; simpl; intuition discriminate. }
  pose proof (Permutation_length H) as Hlen.
  destruct ks as [|x [|y [|]]]; try discriminate.
  assert (Hx : In x ["10.0.0"; "9.0.0"])
    by (apply (Permutation_in _ H); simpl; auto).
  assert (Hy : In y ["10.0.0"; "9.0.0"])
    by (apply (Permutation_in _ H); simpl; auto).
  inversion Hnd as [|? ? Hx' _]; subst. simpl in Hx'.
  destruct Hx as [<-|[<-|[]]]; destruct Hy as [<-|[<-|[]]];
    try reflexivity; exfalso; tauto.
Qed.

Lemma keys_nonempty (bc : PyDict) (ks : list string) :
  Permutation (Py.keys bc) ks -> ks <> [] -> bc <> [].
Proof.
  intros H Hks ->. apply Permutation_nil in H. congruence.
Qed.


(** The lines that are no heading lines record nothing. *)
Lemma heading_versions_filter (lines : list string) :
  heading_versions (filter is_heading lines) = heading_versions lines.
Proof.
  induction lines as [|l ls IH]; [reflexivity|].
  change (l :: ls) with ([l] ++ ls)%list at 2. rewrite heading_versions_app.
  cbn [filter]. destruct (is_heading l) eqn:E.
  - change (l :: filter is_heading ls) with ([l] ++ filter is_heading ls)%list.
    now rewrite heading_versions_app, IH.
  - rewrite IH. unfold heading_versions at 2. cbn [fold_left].
    unfold heading_step. unfold is_heading in E. now rewrite E.
Qed.

(** The heading lines of plain versions record these versions, in order. *)
Lemma heading_versions_plain (vs : list string) :
  Forall plain_version vs -> heading_versions (map heading_line vs) = vs.
Proof.
  induction 1 as [|v vs (Hr & Hv & Hfree) _ IH]; [reflexivity|].
  cbn [map]. change (heading_line v :: map heading_line vs)
    with ([heading_line v] ++ map heading_line vs)%list.
  rewrite heading_versions_app, IH. unfold heading_versions at 1. cbn [fold_left].
  unfold heading_line. now rewrite heading_step_plain.
Qed.

(** C9. The expected order is the descending order of the keys as strings,
    not of the numbers: with the keys "10.0.0" and "9.0.0", in either order
    in the metadata, and a guide that opens with its title, the sorted keys
    are 9.0.0 then 10.0.0, and the check passes exactly when the versions
    recorded from the heading lines of the guide are 9.0.0 then 10.0.0.  So a
    guide whose heading lines are "## Upgrading to v" for plain versions [v]
    passes exactly when these versions are 9.0.0 then 10.0.0; the numerically
    descending sequence 10.0.0, 9.0.0 and any number of heading lines other
    than two give a failed result. *)
Theorem migration_guide_orders_keys_as_strings :
  forall (w : World) (conn : Connector) (bc : PyDict) (p : Path)
         (content : string) (rest : list string),
    Py.get (Py.of_metadata (metadata conn)) ["releases"; "breakingChanges"] VNone
    = VDict bc ->
    Permutation (Py.keys bc) ["10.0.0"; "9.0.0"] ->
    migration_guide_file_path conn = Some p ->
    fs.lookup (files w) p = Some (File (Text content)) ->
    PyStr.splitlines content = guide_title conn :: rest ->
    let headings := heading_versions (PyStr.splitlines content) in
    PyStr.sorted_reverse (Py.keys bc) = ["9.0.0"; "10.0.0"]
    /\ (headings = ["9.0.0"; "10.0.0"] ->
        _run w conn = result name true "The migration guide is correctly templated")
    /\ (headings <> ["9.0.0"; "10.0.0"] ->
        exists msg, _run w conn = result name false msg)
    /\ (headings = ["10.0.0"; "9.0.0"] ->
        exists msg, _run w conn = result name false msg)
    /\ (List.length (filter is_heading (PyStr.splitlines content)) <> 2 ->
        exists msg, _run w conn = result name false msg)
    /\ (forall vs : list string,
           Forall plain_version vs ->
           filter is_heading (PyStr.splitlines content) = map heading_line vs ->
           (vs = ["9.0.0"; "10.0.0"] ->
            _run w conn
            = result name true "The migration guide is correctly templated")
           /\ (vs <> ["9.0.0"; "10.0.0"] ->
               exists msg, _run w conn = result name false msg)).
Proof.
  intros w conn bc p content rest Hbc Hkeys Hp Hfile Hlines headings.
  assert (Hne : bc <> []) by (apply (keys_nonempty _ _ Hkeys); discriminate).
  pose proof (migration_guide_verdict w conn bc p content rest
                Hbc Hne Hp Hfile Hlines) as Hrun.
  rewrite (sorted_reverse_10_9 _ Hkeys) in Hrun. fold headings in Hrun.
  assert (Hfail : headings <> ["9.0.0"; "10.0.0"] ->
                  exists msg, _run w conn = result name false msg).
  { intros Hh. destruct (strs_eqb _ headings) eqn:E.
    - apply strs_eqb_true in E. congruence.
    - eauto. }
  assert (Hpass : headings = ["9.0.0"; "10.0.0"] ->
                  _run w conn
                  = result name true "The migration guide is correctly templated").
  { intros Hh. rewrite <- Hh in Hrun at 1.
    now rewrite (proj2 (strs_eqb_true headings headings) eq_refl) in Hrun. }
  split; [|split; [|split; [|split; [|split]]]].
  - now apply sorted_reverse_10_9.
  - exact Hpass.
  - exact Hfail.
  - intros Hh. apply Hfail. rewrite Hh. discriminate.
  - intros Hcount. apply Hfail. intros Hh.
    apply Hcount. rewrite <- heading_versions_length. fold headings.
    now rewrite Hh.
  - intros vs Hplain Hfilter.
    assert (Hvs : headings = vs).
    { unfold headings. rewrite <- heading_versions_filter, Hfilter.
      now apply heading_versions_plain. }
    rewrite <- Hvs. split; [exact Hpass | exact Hfail].
Qed.

End MigrationGuide.


Lemma plain_sample_versions :
  Forall plain_version ["9.0.0"; "10.0.0"] /\ Forall plain_version ["10.0.0"; "9.0.0"].
Proof. split; repeat constructor; discriminate. Qed.

Lemma migration_guide_orders_keys_as_strings_witness :
  CheckMigrationGuide._run
    (Sample.guide_world ["9.0.0"; "10.0.0"] Sample.upgraded_10) Sample.upgraded_10
  = result CheckMigrationGuide.name true "The migration guide is correctly templated"
  /\ (exists msg,
         CheckMigrationGuide._run
           (Sample.guide_world ["10.0.0"; "9.0.0"] Sample.upgraded_10) Sample.upgraded_10
         = result CheckMigrationGuide.name false msg)
  /\ (exists msg,
         CheckMigrationGuide._run
           (Sample.guide_world ["10.0.0"] Sample.upgraded_10) Sample.upgraded_10
         = result CheckMigrationGuide.name false msg).
Proof.
  split; [|split].
  - destruct (migration_guide_orders_keys_as_strings
                (Sample.guide_world ["9.0.0"; "10.0.0"] Sample.upgraded_10)
                Sample.upgraded_10 _ Sample.guide_path
                (Sample.guide ["9.0.0"; "10.0.0"]) _
                eq_refl (Permutation_refl _) eq_refl eq_refl eq_refl)
      as (_ & _ & _ & _ & _ & Hlines).
    apply (Hlines ["9.0.0"; "10.0.0"]).
    + exact (proj1 plain_sample_versions).
    + vm_compute. reflexivity.
    + reflexivity.
  - destruct (migration_guide_orders_keys_as_strings
                (Sample.guide_world ["10.0.0"; "9.0.0"] Sample.upgraded_10)
                Sample.upgraded_10 _ Sample.guide_path
                (Sample.guide ["10.0.0"; "9.0.0"]) _
                eq_refl (Permutation_refl _) eq_refl eq_refl eq_refl)
      as (_ & _ & _ & Hnum & _ & _).
    apply Hnum. vm_compute. reflexivity.
  - destruct (migration_guide_orders_keys_as_strings
                (Sample.guide_world ["10.0.0"] Sample.upgraded_10)
                Sample.upgraded_10 _ Sample.guide_path
                (Sample.guide ["10.0.0"]) _
                eq_refl (Permutation_refl _) eq_refl eq_refl eq_refl)
      as (_ & _ & _ & _ & Hcount & _).
    apply Hcount. vm_compute. discriminate.
Defined.

(** * models.py: when a check is skipped *)

Section Skipping.

Lemma ns_result (n : string) (b : bool) (m : string) : not_skipping (result n b m).
Proof. destruct b; simpl; discriminate. Qed.

Lemma ns_bind {A : Type} (c : Outcome A) (k : A -> Outcome (option CheckResult)) :
  (forall a, not_skipping (k a)) -> not_skipping (bind c k).
Proof. intros H. destruct c; simpl; [apply H | exact I]. Qed.

Lemma ns_try (body handler : Outcome (option CheckResult)) :
  not_skipping body -> not_skipping handler ->
  not_skipping (try_except_ValueError body handler).
Proof.
  intros Hb Hh. destruct body as [a|e]; simpl; [exact Hb|].
  destruct (is_ValueError e); [exact Hh | exact I].
Qed.

Ltac ns_step :=
  first
    [ apply ns_result
    | exact I
    | apply ns_try
    | apply ns_bind; intros
    | match goal with
      | |- not_skipping (if ?b then _ else _) => destruct b
      | |- not_skipping (match ?x with _ => _ end) => destruct x
      | |- not_skipping (let (_, _) := ?x in _) => destruct x
      end ].

Ltac ns := intros; repeat ns_step.

Lemma ns_enabled (c : Check) (w : World) (conn : Connector) :
  In c ENABLED_CHECKS -> not_skipping (_run c w conn).
Proof.
  unfold ENABLED_CHECKS. intros H.
  repeat (destruct H as [<-|H]); [..|destruct H]; cbn [_run check_of].
  - unfold ValidateMetadata.check, check_of, ValidateMetadata._run; cbn [_run]. ns.
  - unfold CheckDocumentationExists.check, check_of, CheckDocumentationExists._run;
      cbn [_run]. ns.
  - unfold CheckDocumentationStructure.check, check_of,
      CheckDocumentationStructure._run; cbn [_run]. ns.
  - unfold CheckChangelogEntry.check, check_of, CheckChangelogEntry._run;
      cbn [_run]. ns.
  - unfold CheckMigrationGuide.check, check_of, CheckMigrationGuide._run;
      cbn [_run]. ns.
  - unfold CheckConnectorIconIsAvailable.check, check_of,
      CheckConnectorIconIsAvailable._run; cbn [_run]. ns.
  - unfold CheckConnectorUsesHTTPSOnly.check, check_of,
      CheckConnectorUsesHTTPSOnly._run; cbn [_run]. ns.
  - unfold CheckConnectorUsesPoetry.check, check_of, CheckConnectorUsesPoetry._run;
      cbn [_run]. ns.
  - unfold CheckConnectorUsesPythonBaseImage.check, check_of,
      CheckConnectorUsesPythonBaseImage._run; cbn [_run]. ns.
  - unfold CheckPublishToPyPiIsEnabled.check, check_of,
      CheckPublishToPyPiIsEnabled._run; cbn [_run]. ns.
  - unfold CheckConnectorLicense.check, check_of, CheckConnectorLicense._run;
      cbn [_run]. ns.
  - unfold CheckVersionFollowsSemver.check, check_of,
      CheckVersionFollowsSemver._run, CheckVersionFollowsSemver.try_body;
      cbn [_run]. ns.
Qed.

(** C3. For every enabled check and every connector: when the language of
    the connector is outside the languages of the check, running the check
    returns a skipped result, whatever the rest of the connector and the world
    hold and whatever the evaluation logic of the check is, which is not
    consulted; and a result that a run returns is skipped exactly when the
    language is outside that set. *)
Theorem skipped_iff_language_not_applicable :
  forall c : Check,
    In c ENABLED_CHECKS ->
    forall (w : World) (conn : Connector),
      (language_in (language conn) (applies_to_connector_languages c) = false ->
       forall body,
         run (check_of (name c) (category c) (applies_to_connector_languages c) body)
             w conn
         = Returns (Some (skip (name c) (skip_message conn))))
      /\ (language_in (language conn) (applies_to_connector_languages c) = false ->
          run c w conn = Returns (Some (skip (name c) (skip_message conn))))
      /\ (forall r : CheckResult,
             run c w conn = Returns (Some r) ->
             (status r = SKIPPED <->
              language_in (language conn) (applies_to_connector_languages c) = false)).
Proof.
  intros c Hc w conn. split; [|split].
  - intros Hout body. unfold run. cbn [applies_to_connector_languages check_of name].
    now rewrite Hout.
  - intros Hout. unfold run. now rewrite Hout.
  - intros r Hr. unfold run in Hr.
    destruct (language_in _ _) eqn:E; cbn [negb] in Hr.
    + pose proof (ns_enabled c w conn Hc) as Hns. rewrite Hr in Hns. simpl in Hns.
      split; [tauto | discriminate].
    + injection Hr as <-. split; reflexivity.
Qed.

End Skipping.

(** * cli.py: the run over all pairs *)

Section Runner.

Lemma evaluate_all (w : World) (pairs : list (Connector * Check))
  (outs : list (option CheckResult)) :
  Forall2 (evaluates_to w) pairs outs -> cli.evaluate w pairs = (outs, None).
Proof.
  induction 1 as [|[conn c] o pairs outs Hrun _ IH]; [reflexivity|].
  unfold evaluates_to in Hrun. cbn [fst snd] in Hrun.
  cbn [cli.evaluate]. now rewrite Hrun, IH.
Qed.

Lemma evaluate_stops (w : World) (pre post : list (Connector * Check))
  (outs : list (option CheckResult)) (conn : Connector) (c : Check) (e : PyExn) :
  Forall2 (evaluates_to w) pre outs ->
  run c w conn = Raises e ->
  cli.evaluate w (pre ++ (conn, c) :: post)%list = (outs, Some e).
Proof.
  intros Hpre Hraise.
  induction Hpre as [|[conn' c'] o pre outs Hrun _ IH].
  - cbn [app cli.evaluate]. now rewrite Hraise.
  - unfold evaluates_to in Hrun. cbn [fst snd] in Hrun.
    cbn [app cli.evaluate]. now rewrite Hrun, IH.
Qed.

Lemma failed_checks_some (results : list CheckResult) :
  cli.failed_checks (map Some results) = Returns (filter is_failed results).
Proof.
  induction results as [|r rs IH]; [reflexivity|].
  cbn [map cli.failed_checks filter]. rewrite IH. cbn [bind]. reflexivity.
Qed.

Lemma all_return (w : World) (pairs : list (Connector * Check)) :
  (forall conn c, In (conn, c) pairs -> exists r, run c w conn = Returns (Some r)) ->
  exists results, Forall2 (evaluates_to w) pairs (map Some results).
Proof.
  induction pairs as [|[conn c] pairs IH]; intros H.
  - exists []. constructor.
  - destruct (H conn c (or_introl eq_refl)) as [r Hr].
    destruct IH as [rs Hrs]; [intros; apply H; now right|].
    exists (r :: rs). constructor; assumption.
Qed.

Lemma is_failed_iff (r : CheckResult) : is_failed r = true <-> status r = FAILED.
Proof. unfold is_failed. destruct (status r); simpl; split; congruence. Qed.

Lemma no_failed_iff (results : list CheckResult) :
  filter is_failed results = [] <-> Forall (fun r => status r <> FAILED) results.
Proof.
  induction results as [|r rs IH]; cbn [filter].
  - split; [constructor | reflexivity].
  - destruct (is_failed r) eqn:E.
    + apply is_failed_iff in E. split; [discriminate | inversion 1; congruence].
    + assert (Hr : status r <> FAILED).
      { intros H. apply is_failed_iff in H. congruence. }
      rewrite IH. split; [now constructor | now inversion 1].
Qed.

Lemma some_failed_iff (results : list CheckResult) :
  filter is_failed results <> [] <-> Exists (fun r => status r = FAILED) results.
Proof.
  rewrite no_failed_iff. split.
  - intros H. induction results as [|r rs IH].
    + exfalso. apply H. constructor.
    + destruct (is_failed r) eqn:E.
      * left. now apply is_failed_iff.
      * right. apply IH. intros Hrs. apply H. constructor; [|assumption].
        intros Hr. apply is_failed_iff in Hr. congruence.
  - intros Hex Hall. rewrite Forall_forall in Hall. rewrite Exists_exists in Hex.
    destruct Hex as (r & Hin & Hr). exact (Hall r Hin Hr).
Qed.

Lemma verdict_success (results : list CheckResult) :
  verdict results = Returns tt <-> Forall (fun r => status r <> FAILED) results.
Proof.
  rewrite <- no_failed_iff. unfold verdict.
  destruct (filter is_failed results); split; congruence.
Qed.

Lemma verdict_failure (results : list CheckResult) :
  (exists n, verdict results = Raises (checks_failed n))
  <-> Exists (fun r => status r = FAILED) results.
Proof.
  rewrite <- some_failed_iff. unfold verdict.
  destruct (filter is_failed results); split.
  - intros [n H]. discriminate.
  - congruence.
  - discriminate.
  - eauto.
Qed.

(** C4, as the code has it.  When every evaluation returns a result, every
    pair of the product of the connectors with the registry is evaluated, in
    the order of the product, and the run ends with the "checks failed" error
    exactly when some result is failed, and ends normally exactly when every
    result is passed or skipped.  When an evaluation raises instead, the run
    stops at that pair with that exception: the later pairs are not
    evaluated. *)
Theorem run_verdict :
  forall (w : World) (registry : list Check) (names : list string),
    let pairs := list_prod (cli.connectors_of w names) registry in
    let report := cli.run_checks w registry names in
    ((forall conn c, In (conn, c) pairs ->
                     exists r, run c w conn = Returns (Some r)) ->
     exists results : list CheckResult,
       Forall2 (evaluates_to w) pairs (map Some results)
       /\ cli.echoed report = map Some results
       /\ cli.exit report = verdict results
       /\ (cli.exit report = Returns tt
           <-> Forall (fun r => status r <> FAILED) results)
       /\ ((exists n, cli.exit report = Raises (checks_failed n))
           <-> Exists (fun r => status r = FAILED) results))
    /\ (forall pre post outs conn c e,
           pairs = (pre ++ (conn, c) :: post)%list ->
           Forall2 (evaluates_to w) pre outs ->
           run c w conn = Raises e ->
           cli.echoed report = outs /\ cli.exit report = Raises e).
Proof.
  intros w registry names pairs report. split.
  - intros Hall. destruct (all_return w pairs Hall) as [results Hres].
    exists results.
    assert (Hecho : cli.echoed report = map Some results
                    /\ cli.exit report = verdict results).
    { unfold report, cli.run_checks. fold pairs.
      rewrite (evaluate_all _ _ _ Hres). cbn [cli.echoed cli.exit].
      rewrite failed_checks_some. cbn [bind]. unfold verdict, checks_failed.
      split; [reflexivity|]. destruct (filter is_failed results); reflexivity. }
    destruct Hecho as [Hecho Hexit].
    repeat split; try assumption; rewrite Hexit.
    + apply verdict_success.
    + apply verdict_success.
    + apply verdict_failure.
    + apply verdict_failure.
  - intros pre post outs conn c e Hpairs Hpre Hraise.
    unfold report, cli.run_checks. fold pairs. rewrite Hpairs.
    rewrite (evaluate_stops _ _ _ _ _ _ _ Hpre Hraise). split; reflexivity.
Qed.

End Runner.

(** * The metadata check and its credentials *)

Section Credentials.

Lemma mem_In (x : string) (l : list string) : PyStr.mem x l = true <-> In x l.
Proof.
  unfold PyStr.mem. rewrite existsb_exists. split.
  - intros (y & Hy & E). apply String.eqb_eq in E. now subst.
  - intros H. exists x. split; [assumption | apply String.eqb_refl].
Qed.

Lemma mem_not_In (x : string) (l : list string) : PyStr.mem x l = false <-> ~ In x l.
Proof.
  rewrite <- mem_In. destruct (PyStr.mem x l); split; congruence.
Qed.

(** The loop raises for the first variable, in its order, that is not set. *)
Lemma require_env_raises (vars env : list string) :
  (exists v, In v vars /\ ~ In v env) ->
  exists v, In v vars /\ ~ In v env
            /\ ValidateMetadata.require_env vars env = Raises (env_var_required v).
Proof.
  induction vars as [|x vars IH]; intros (v & Hv & Hmiss); [destruct Hv|].
  cbn [ValidateMetadata.require_env].
  destruct (PyStr.mem x env) eqn:E; cbn [negb].
  - apply mem_In in E.
    destruct Hv as [->|Hv]; [contradiction|].
    destruct IH as (u & Hu & Hu' & Hrun); [eauto|].
    exists u. repeat split; [now right | assumption | assumption].
  - apply mem_not_In in E. exists x. repeat split; [now left | assumption].
Qed.

Lemma all_languages (l : ConnectorLanguage) : language_in l ALL_LANGUAGES = true.
Proof. destruct l; reflexivity. Qed.

Lemma connectors_of_nonempty (w : World) (names : list string) :
  set_iter_ok w -> names <> [] ->
  exists conn rest, cli.connectors_of w names = conn :: rest.
Proof.
  intros Hw Hnames. unfold cli.connectors_of.
  destruct names as [|n names]; [congruence|].
  set (normal := nodup _ _).
  assert (Hin : In (remove_strict_encrypt_suffix n) normal).
  { apply nodup_In. now left. }
  apply (Permutation_in _ (Permutation_sym (Hw normal))) in Hin.
  destruct (set_iter w normal) as [|x xs]; [destruct Hin|].
  cbn [map]. eauto.
Qed.

(** C8. When DOCKERHUB_USERNAME or DOCKERHUB_PASSWORD is not in the
    environment, the metadata check, run on any connector, raises a
    [ValueError] that names a missing variable and returns no result.  The
    error is fixed by the environment alone: it is the same for every
    connector and every file system.  It ends the whole run, with no result
    echoed, instead of being counted as a failed check. *)
Theorem validate_metadata_needs_credentials :
  forall w : World,
    set_iter_ok w ->
    ~ In "DOCKERHUB_USERNAME" (environ w) \/ ~ In "DOCKERHUB_PASSWORD" (environ w) ->
    exists env_var : string,
      In env_var ValidateMetadata.required_env_vars
      /\ ~ In env_var (environ w)
      /\ (forall conn, run ValidateMetadata.check w conn
                       = Raises (env_var_required env_var))
      /\ (forall w' conn,
             environ w' = environ w ->
             set_iter w' ValidateMetadata.required_env_vars
             = set_iter w ValidateMetadata.required_env_vars ->
             run ValidateMetadata.check w' conn = Raises (env_var_required env_var))
      /\ (forall names,
             names <> [] ->
             cli.run w names
             = {| cli.echoed := []; cli.exit := Raises (env_var_required env_var) |}).
Proof.
  intros w Hw Hmissing.
  pose proof (Hw ValidateMetadata.required_env_vars) as Hperm.
  destruct (require_env_raises (set_iter w ValidateMetadata.required_env_vars)
              (environ w)) as (v & Hv & Hv' & Hraise).
  { destruct Hmissing as [H|H];
      [exists "DOCKERHUB_USERNAME" | exists "DOCKERHUB_PASSWORD"];
      (split; [|assumption]);
      apply (Permutation_in _ (Permutation_sym Hperm)); simpl; auto. }
  exists v.
  assert (Hrun : forall w' conn,
             environ w' = environ w ->
             set_iter w' ValidateMetadata.required_env_vars
             = set_iter w ValidateMetadata.required_env_vars ->
             run ValidateMetadata.check w' conn = Raises (env_var_required v)).
  { intros w' conn He Hs. unfold run.
    cbn [ValidateMetadata.check check_of applies_to_connector_languages _run].
    rewrite all_languages. cbn [negb].
    unfold ValidateMetadata._run. now rewrite He, Hs, Hraise. }
  repeat split.
  - exact (Permutation_in _ Hperm Hv).
  - exact Hv'.
  - intros conn. now apply Hrun.
  - exact Hrun.
  - intros names Hnames.
    destruct (connectors_of_nonempty w names Hw Hnames) as (conn & rest & Hc).
    unfold cli.run, cli.run_checks. rewrite Hc.
    unfold ENABLED_CHECKS. cbn [list_prod map app cli.evaluate].
    now rewrite (Hrun w conn eq_refl eq_refl).
Qed.

End Credentials.

(** * The HTTPS-only check *)

Section Replacing.

Import PyStr.



Lemma contains_shorter (s p q : string) :
  contains s (p ++ q) = true -> contains s p = true.
Proof.
  intros H. apply contains_inv in H as (a & b & ->).
  rewrite append_assoc. apply contains_mid.
Qed.

Lemma contains_longer_false (s p q : string) :
  contains s p = false -> contains s (p ++ q) = false.
Proof.
  intros H. destruct (contains s (p ++ q)) eqn:E; [|reflexivity].
  apply contains_shorter in E. congruence.
Qed.

Lemma contains_app_false (a b p : string) :
  contains (a ++ b) p = false -> contains a p = false /\ contains b p = false.
Proof.
  intros H. split.
  - destruct (contains a p) eqn:E; [|reflexivity].
    apply contains_app_l with (b := b) in E. congruence.
  - destruct (contains b p) eqn:E; [|reflexivity].
    apply contains_app_r with (a := a) in E. congruence.
Qed.

(** An occurrence of [e] that no match of [old] can touch is still there
    after the replacement. *)
Lemma replace_go_keeps (old new e b : string) :
  starts_clear old (e ++ b) ->
  replace_go old new 0 (e ++ b) = e ++ replace_go old new 0 b ->
  forall (a : string) (skip : nat),
    skip <= String.length a ->
    exists a', replace_go old new skip (a ++ e ++ b)
               = a' ++ e ++ replace_go old new 0 b.
Proof.
  intros Hclear Hinside. induction a as [|c a IH]; intros skip Hskip.
  - simpl in Hskip. assert (skip = 0) as -> by lia.
    exists "". exact Hinside.
  - change (String c a ++ e ++ b) with (String c (a ++ e ++ b)).
    destruct skip as [|k]; cbn [replace_go].
    + destruct (startswith (String c (a ++ e ++ b)) old) eqn:E.
      * assert (Hlen : String.length old - 1 <= String.length a).
        { destruct (Nat.lt_ge_cases (String.length (String c a)) (String.length old))
            as [L|L]; [|simpl in L; lia].
          change (String c (a ++ e ++ b)) with (String c a ++ e ++ b) in E.
          rewrite (Hclear (String c a)) in E; [discriminate | discriminate | exact L]. }
        destruct (IH _ Hlen) as [a' Ha']. exists (new ++ a').
        now rewrite Ha', append_assoc.
      * destruct (IH 0 (Nat.le_0_l _)) as [a' Ha']. exists (String c a').
        now rewrite Ha'.
    + simpl in Hskip. destruct (IH k) as [a' Ha']; [lia|]. now exists a'.
Qed.


(** Taking out one occurrence of [old] between two texts that do not contain
    it, when no other match can start before it. *)
Lemma replace_single (old1 old pre post : string) (c : ascii) :
  old = String c old1 ->
  starts_clear old (old ++ post) ->
  contains pre old = false -> contains post old = false ->
  replace (pre ++ old ++ post) old "" = pre ++ post.
Proof.
  intros -> Hclear Hpre Hpost. cbn [replace].
  rewrite replace_go_pass by assumption.
  rewrite replace_go_match, replace_go_absent by assumption. reflexivity.
Qed.

End Replacing.

Section AllowList.

Import PyStr.



Lemma json_schema_clear_before_itself (b : string) :
  starts_clear "http://json-schema.org" ("http://json-schema.org" ++ b).
Proof. unfold starts_clear. overlap_chain. Qed.

Lemma localhost_clear_before_json_schema (b : string) :
  starts_clear "http://localhost" ("http://json-schema.org" ++ b).
Proof. unfold starts_clear. overlap_chain. Qed.



Lemma localhost_not_in_json_schema (b : string) :
  replace_go localhost "" 0 (json_schema ++ b)
  = json_schema ++ replace_go localhost "" 0 b.
Proof. reflexivity. Qed.

End AllowList.

Section HttpsOnly.

Import PyStr CheckConnectorUsesHTTPSOnly.

(** A world that iterates over a set in some order of its elements. *)
Variable w : World.
Hypothesis Hw : set_iter_ok w.

Lemma perm_pair {A : Type} (l : list A) (a b : A) :
  Permutation l [a; b] -> l = [a; b] \/ l = [b; a].
Proof.
  intros H. pose proof (Permutation_length H) as Hlen.
  destruct l as [|x [|y [|]]]; try discriminate.
  apply Permutation_sym, Permutation_length_2_inv in H.
  destruct H as [H|H]; injection H as -> ->; auto.
Qed.

Lemma prefix_order :
  set_iter w ignored_url_prefixes = [json_schema; localhost]
  \/ set_iter w ignored_url_prefixes = [localhost; json_schema].
Proof. apply perm_pair, Hw. Qed.


(** A line whose only "http://" opens one http://json-schema.org has none
    left after the replacements. *)
Lemma strip_json_schema (pre post : string) :
  contains (pre ++ post) "http://" = false ->
  strip_prefixes (set_iter w ignored_url_prefixes) (pre ++ json_schema ++ post)
  = pre ++ post.
Proof.
  intros H.
  destruct (contains_app_false _ _ _ H) as [Hpre Hpost].
  assert (Hj : replace (pre ++ json_schema ++ post) json_schema "" = pre ++ post).
  { eapply replace_single; [reflexivity|..].
    - apply json_schema_clear_before_itself.
    - apply (contains_longer_false pre "http://" "json-schema.org" Hpre).
    - apply (contains_longer_false post "http://" "json-schema.org" Hpost). }
  assert (Hl : replace (pre ++ post) localhost "" = pre ++ post).
  { apply replace_go_absent.
    apply (contains_longer_false _ "http://" "localhost" H). }
  assert (Hl' : replace (pre ++ json_schema ++ post) localhost ""
                = pre ++ json_schema ++ post).
  { unfold replace, localhost.
    rewrite replace_go_pass.
    - fold localhost. rewrite localhost_not_in_json_schema.
      rewrite replace_go_absent; [reflexivity|].
      apply (contains_longer_false post "http://" "localhost" Hpost).
    - apply localhost_clear_before_json_schema.
    - apply (contains_longer_false pre "http://" "localhost" Hpre). }
  destruct prefix_order as [-> | ->]; cbn [strip_prefixes fold_left].
  - now rewrite Hj, Hl.
  - now rewrite Hl', Hj.
Qed.

Lemma isspace_lower_char (c : ascii) : isspace (lower_char c) = isspace c.
Proof. destruct c as [[] [] [] [] [] [] [] []]; reflexivity. Qed.

Lemma lstrip_lower (s : string) : lstrip (lower s) = lower (lstrip s).
Proof.
  induction s as [|c s IH]; [reflexivity|].
  cbn [lower lstrip]. rewrite isspace_lower_char.
  destruct (isspace c); [exact IH | reflexivity].
Qed.

Lemma caseless_hash : caseless "#".
Proof. intros c. destruct c as [[] [] [] [] [] [] [] []]; reflexivity. Qed.

Lemma caseless_slash : caseless "/".
Proof. intros c. destruct c as [[] [] [] [] [] [] [] []]; reflexivity. Qed.

Lemma caseless_lt : caseless "<".
Proof. intros c. destruct c as [[] [] [] [] [] [] [] []]; reflexivity. Qed.

Lemma caseless_bang : caseless "!".
Proof. intros c. destruct c as [[] [] [] [] [] [] [] []]; reflexivity. Qed.

Lemma caseless_dash : caseless "-".
Proof. intros c. destruct c as [[] [] [] [] [] [] [] []]; reflexivity. Qed.

Lemma startswith_lower (s m : string) :
  all_caseless m -> startswith (lower s) m = startswith s m.
Proof.
  revert s. induction m as [|d m IH]; intros s Hm; [reflexivity|].
  destruct Hm as [Hd Hm]. destruct s as [|c s]; [reflexivity|].
  cbn [lower startswith]. now rewrite Hd, IH.
Qed.

Lemma comment_table_caseless (suffix marker : string) :
  comment_for language_comments suffix = Some marker -> all_caseless marker.
Proof.
  unfold language_comments. cbn [comment_for].
  repeat (destruct (String.eqb suffix _);
          [intros [= <-]; cbn [all_caseless];
           auto using caseless_hash, caseless_slash, caseless_lt, caseless_bang,
             caseless_dash|]).
  discriminate.
Qed.

(** Whether a line is a comment does not depend on the case of its letters. *)
Lemma line_is_comment_lower (line : string) (path : Path) :
  _line_is_comment (lower line) path = _line_is_comment line path.
Proof.
  unfold _line_is_comment.
  destruct (comment_for language_comments (pathlib.suffix path)) as [marker|] eqn:E;
    [|reflexivity].
  rewrite lstrip_lower. apply startswith_lower.
  now apply comment_table_caseless with (suffix := pathlib.suffix path).
Qed.

Lemma join_has (sep : string) (parts : list string) (x : string) :
  In x parts -> exists a b, join sep parts = a ++ x ++ b.
Proof.
  induction parts as [|p ps IH]; intros H; [destruct H|].
  destruct H as [->|H].
  - destruct ps as [|q ps].
    + exists "", "". cbn [join append]. now rewrite append_nil_r.
    + exists "", (sep ++ join sep (q :: ps)). reflexivity.
  - destruct (IH H) as (a & b & Hab). destruct ps as [|q ps]; [destruct H|].
    exists (p ++ sep ++ a), b. cbn [join] in *. rewrite Hab.
    now rewrite !append_assoc.
Qed.

Lemma set_add_keeps (x y : string) (s : list string) : In x s -> In x (set_add y s).
Proof.
  intros H. unfold set_add. destruct (mem y s); [assumption|].
  apply in_or_app. now left.
Qed.

Lemma set_add_has (x : string) (s : list string) : In x (set_add x s).
Proof.
  unfold set_add. destruct (mem x s) eqn:E.
  - now apply mem_In.
  - apply in_or_app. right. now left.
Qed.

Lemma file_step_keeps (acc : list string) (item : Path * string)
  (x : string) : In x acc -> In x (file_step w acc item).
Proof.
  intros H. unfold file_step. destruct item as [p l].
  destruct (line_has_http w p l); [now apply set_add_keeps | assumption].
Qed.

Lemma fold_keeps (items : list (Path * string)) (acc : list string)
  (x : string) : In x acc -> In x (fold_left (file_step w) items acc).
Proof.
  revert acc. induction items as [|i items IH]; intros acc H; [assumption|].
  cbn [fold_left]. apply IH. now apply file_step_keeps.
Qed.

Lemma fold_reports (items : list (Path * string)) (acc : list string)
  (path : Path) (line : string) :
  In (path, line) items -> line_has_http w path line = true ->
  In (pathlib.str path) (fold_left (file_step w) items acc).
Proof.
  revert acc. induction items as [|i items IH]; intros acc Hin Hline; [destruct Hin|].
  cbn [fold_left]. destruct Hin as [->|Hin].
  - apply fold_keeps. unfold file_step. rewrite Hline. apply set_add_has.
  - now apply IH.
Qed.





End HttpsOnly.

(** * The documentation-structure check *)

Section DocumentationStructure.

Import PyStr CheckDocumentationStructure.

Lemma section_fold (doc_lines sections errors : list string) :
  fold_left (section_step doc_lines) sections errors
  = (errors
     ++ map section_error
          (filter (fun section => negb (mem (lower section) doc_lines)) sections))%list.
Proof.
  revert errors. induction sections as [|s sections IH]; intros errors.
  - cbn [fold_left filter map]. now rewrite app_nil_r.
  - cbn [fold_left filter]. rewrite IH. unfold section_step.
    destruct (negb (mem (lower s) doc_lines)); [|reflexivity].
    cbn [map]. now rewrite <- app_assoc.
Qed.

(** The verdict once the errors of the name rule are known. *)
Lemma structure_verdict (errors doc_lines : list string) :
  let all := fold_left (section_step doc_lines) expected_sections errors in
  (errors = [] -> missing_sections doc_lines = [] ->
   match all with
   | _ :: _ =>
       result name false
         ("Connector documentation does not follow the guidelines. " ++ join ". " all)
   | [] => result name true "Documentation guidelines are followed"
   end = result name true "Documentation guidelines are followed")
  /\ (errors <> [] \/ missing_sections doc_lines <> [] ->
      exists msg,
        match all with
        | _ :: _ =>
            result name false
              ("Connector documentation does not follow the guidelines. "
               ++ join ". " all)
        | [] => result name true "Documentation guidelines are followed"
        end = result name false msg
        /\ forall section, In section (missing_sections doc_lines) ->
                           contains msg (section_error section) = true).
Proof.
  intros all. unfold all. rewrite section_fold. fold (missing_sections doc_lines).
  split.
  - intros -> ->. reflexivity.
  - intros Hsome.
    destruct (errors ++ map section_error (missing_sections doc_lines))%list
      as [|e es] eqn:E.
    + apply app_eq_nil in E as [-> E]. apply map_eq_nil in E. tauto.
    + eexists. split; [reflexivity|]. intros section Hin.
      assert (Hin' : In (section_error section) (e :: es)).
      { rewrite <- E. apply in_or_app. right. now apply in_map. }
      destruct (join_has ". " _ _ Hin') as (a & b & ->).
      apply contains_app_r, contains_mid.
Qed.

(** The verdict of the check in terms of the name rule, where it answers. *)
Lemma documentation_structure_by_rule :
  forall (w : World) (conn : Connector) (p : Path) (content first : string)
         (rest : list string) (heading_ok : bool),
    documentation_file_path conn = Some p ->
    fs.lookup (files w) p = Some (File (Text content)) ->
    map lower (splitlines content) = first :: rest ->
    name_heading_rule conn first = Some heading_ok ->
    (heading_ok = true -> missing_sections (first :: rest) = [] ->
     _run w conn = result name true "Documentation guidelines are followed")
    /\ (heading_ok = false \/ missing_sections (first :: rest) <> [] ->
        exists msg,
          _run w conn = result name false msg
          /\ forall section, In section (missing_sections (first :: rest)) ->
                             contains msg (section_error section) = true).
Proof.
  intros w conn p content first rest heading_ok Hp Hfile Hlines Hrule.
  unfold _run, open_read, fs.read_text. rewrite Hp, Hfile. cbn [bind].
  rewrite Hlines. cbn [Py.first bind].
  unfold name_heading_rule in Hrule.
  destruct (metadata_truthy (metadata conn)).
  - destruct (Py.getitem _ "name") as [[| | |n| |]|]; try discriminate.
    cbn [Py.lower bind].
    destruct (startswith first "# "), (String.eqb (strip first) _);
      cbn [andb] in Hrule; injection Hrule as <-; cbn [negb app];
      match goal with
      | |- context [fold_left _ _ ?errs] =>
          destruct (structure_verdict errs (first :: rest)) as [Hpass Hfail]
      end;
      (split;
       [ intros Hok Hmiss;
         first [discriminate Hok | now apply Hpass]
       | intros Hbad; apply Hfail;
         first [ left; discriminate
               | destruct Hbad as [Hbad|Hbad]; [discriminate Hbad | now right] ] ]).
  - destruct (startswith first "# "); injection Hrule as <-; cbn [negb app bind];
      match goal with
      | |- context [fold_left _ _ ?errs] =>
          destruct (structure_verdict errs (first :: rest)) as [Hpass Hfail]
      end;
      (split;
       [ intros Hok Hmiss;
         first [discriminate Hok | now apply Hpass]
       | intros Hbad; apply Hfail;
         first [ left; discriminate
               | destruct Hbad as [Hbad|Hbad]; [discriminate Hbad | now right] ] ]).
Qed.

(** C7, as the code has it.  For a connector whose documentation file exists
    and has a first line, the name rule is applied to that first line, blank
    or not, lowered.  Without metadata the line must start with "# "; with
    metadata that holds a string name it must start with "# " and, once
    stripped, be "# " followed by the lowered name.  In both cases the check
    passes exactly when the rule holds and every required section is a line
    of the lowered documentation; otherwise the result is failed and its
    message lists every missing section.  With metadata that holds no name,
    or a name that is no string, the check raises and gives no result. *)
Theorem documentation_structure_rules :
  forall (w : World) (conn : Connector) (p : Path) (content first : string)
         (rest : list string),
    documentation_file_path conn = Some p ->
    fs.lookup (files w) p = Some (File (Text content)) ->
    map lower (splitlines content) = first :: rest ->
    (forall heading_ok : bool,
        (metadata_truthy (metadata conn) = false
         /\ heading_ok = startswith first "# ")
        \/ (exists n : string,
               metadata_truthy (metadata conn) = true
               /\ Py.getitem (Py.of_metadata (metadata conn)) "name" = Returns (VStr n)
               /\ heading_ok
                  = startswith first "# "
                    && String.eqb (strip first) ("# " ++ lower n)) ->
        (heading_ok = true -> missing_sections (first :: rest) = [] ->
         _run w conn = result name true "Documentation guidelines are followed")
        /\ (heading_ok = false \/ missing_sections (first :: rest) <> [] ->
            exists msg,
              _run w conn = result name false msg
              /\ forall section, In section (missing_sections (first :: rest)) ->
                                 contains msg (section_error section) = true))
    /\ (forall e : PyExn,
           metadata_truthy (metadata conn) = true ->
           Py.getitem (Py.of_metadata (metadata conn)) "name" = Raises e ->
           _run w conn = Raises e)
    /\ (forall v : PyVal,
           metadata_truthy (metadata conn) = true ->
           Py.getitem (Py.of_metadata (metadata conn)) "name" = Returns v ->
           (forall n : string, v <> VStr n) ->
           _run w conn = Raises AttributeError).
Proof.
  intros w conn p content first rest Hp Hfile Hlines. split; [|split].
  - intros heading_ok Hcase.
    apply (documentation_structure_by_rule w conn p content first rest heading_ok
             Hp Hfile Hlines).
    unfold name_heading_rule.
    destruct Hcase as [[Hm ->]|(n & Hm & Hn & ->)]; rewrite Hm;
      [reflexivity | now rewrite Hn].
  - intros e Hm He. unfold _run, open_read, fs.read_text. rewrite Hp, Hfile.
    cbn [bind]. rewrite Hlines. cbn [Py.first bind]. now rewrite Hm, He.
  - intros v Hm Hv Hstr. unfold _run, open_read, fs.read_text. rewrite Hp, Hfile.
    cbn [bind]. rewrite Hlines. cbn [Py.first bind]. rewrite Hm, Hv. cbn [bind].
    destruct v; try reflexivity. now destruct (Hstr s).
Qed.

End DocumentationStructure.

Lemma sample_world_ok (t : FS) (env : list string) (pyproject : PyVal)
  (conn : Connector) : set_iter_ok (Sample.world t env pyproject conn).
Proof. intros l. apply Permutation_refl. Qed.

(** * The version check *)

Lemma np_bind {A : Type} (c : Outcome A) (k : A -> Outcome (option CheckResult)) :
  (forall a, never_passing (k a)) -> never_passing (bind c k).
Proof. intros H. destruct c; simpl; [apply H | exact I]. Qed.

Lemma np_try (body handler : Outcome (option CheckResult)) :
  never_passing body -> never_passing handler ->
  never_passing (try_except_ValueError body handler).
Proof.
  intros Hb Hh. destruct body as [a|e]; simpl; [exact Hb|].
  destruct (is_ValueError e); [exact Hh | exact I].
Qed.

Lemma version_check_never_passes (w : World) (conn : Connector) :
  never_passing (CheckVersionFollowsSemver._run w conn).
Proof.
  unfold CheckVersionFollowsSemver._run, CheckVersionFollowsSemver.try_body.
  repeat first
    [ exact I
    | reflexivity
    | apply np_try
    | apply np_bind; intros
    | match goal with
      | |- never_passing (if ?b then _ else _) => destruct b
      | |- never_passing (match ?x with _ => _ end) => destruct x
      end ].
Qed.

(** C1.  No run of the version check returns a passed result: whenever it
    returns a result, the result is failed.  With the tag "1.2.3" in the
    metadata and the version "1.2.3" in the manifest of a Python or low-code
    connector, the check runs to the end of its [try] block and returns
    nothing.  With the manifest version "1.2.4" it returns a failed result,
    and with the tag "abc" a failed result that says the version does not
    follow Semantic Versioning. *)
Theorem version_check_returns_nothing_on_agreement :
  (forall (w : World) (conn : Connector),
      never_passing (CheckVersionFollowsSemver._run w conn))
  /\ CheckVersionFollowsSemver._run
       (Sample.manifest_world "1.2.3" (Sample.tagged PYTHON "1.2.3"))
       (Sample.tagged PYTHON "1.2.3") = Returns None
  /\ CheckVersionFollowsSemver._run
       (Sample.manifest_world "1.2.3" (Sample.tagged LOW_CODE "1.2.3"))
       (Sample.tagged LOW_CODE "1.2.3") = Returns None
  /\ CheckVersionFollowsSemver._run
       (Sample.manifest_world "1.2.4" (Sample.tagged PYTHON "1.2.3"))
       (Sample.tagged PYTHON "1.2.3")
     = result CheckVersionFollowsSemver.name false
         ("Connector version in metadata.yaml is 1.2.3, but version in "
          ++ "pyproject.toml is 1.2.4. These two files have to be consistent")
  /\ CheckVersionFollowsSemver._run
       (Sample.manifest_world "1.2.3" (Sample.tagged PYTHON "abc"))
       (Sample.tagged PYTHON "abc")
     = result CheckVersionFollowsSemver.name false
         "Connector version abc does not follow Semantic Versioning".
Proof.
  split; [exact version_check_never_passes|].
  repeat split; vm_compute; reflexivity.
Qed.

(** * Checks that raise *)

(** C2.  Connector states on which a check raises or returns nothing instead
    of returning a result: the documentation-structure check on an empty
    documentation file, on a missing one and on a connector without a
    documentation path; the licence check on metadata without a licence; the
    migration-guide check on an empty guide; the version check on versions
    that agree. *)
Theorem checks_are_not_total :
  CheckDocumentationStructure._run
    (Sample.doc_world "" [] Sample.java) Sample.java = Raises IndexError
  /\ run CheckDocumentationStructure.check
       (Sample.doc_world "" [] Sample.java) Sample.java = Raises IndexError
  /\ CheckDocumentationStructure._run
       (Sample.world [] [] VNone Sample.java) Sample.java = Raises FileNotFoundError
  /\ (forall w lang md,
         CheckDocumentationStructure._run w
           {| technical_name := "source-foo"; connector_name := "foo";
              name_from_metadata := None; language := lang; metadata := md;
              code_directory := Sample.code_dir; documentation_file_path := None;
              migration_guide_file_path := None; icon_path := None;
              version := "1.2.3" |} = Raises TypeError)
  /\ CheckConnectorLicense._run
       (Sample.world [] [] VNone Sample.unlicensed) Sample.unlicensed
     = Raises AttributeError
  /\ CheckMigrationGuide._run
       (Sample.world [(Sample.guide_path, File (Text ""))] [] VNone
          (Sample.connector PYTHON (Some (Sample.breaking ["1.0.0"]))))
       (Sample.connector PYTHON (Some (Sample.breaking ["1.0.0"])))
     = Raises IndexError
  /\ CheckVersionFollowsSemver._run
       (Sample.manifest_world "1.2.3" (Sample.tagged PYTHON "1.2.3"))
       (Sample.tagged PYTHON "1.2.3") = Returns None.
Proof. repeat split; try (intros; reflexivity); vm_compute; reflexivity. Qed.

(** * The properties at sample connectors *)

Lemma skipped_iff_language_not_applicable_witness :
  run CheckConnectorUsesPoetry.check
      (Sample.world [] [] VNone Sample.java) Sample.java
  = Returns (Some (skip CheckConnectorUsesPoetry.name
                     "Check does not apply to java connectors")).
Proof.
  refine (proj1 (proj2 (skipped_iff_language_not_applicable
                          CheckConnectorUsesPoetry.check _
                          (Sample.world [] [] VNone Sample.java) Sample.java)) _).
  - unfold ENABLED_CHECKS. simpl. tauto.
  - reflexivity.
Defined.

Lemma validate_metadata_needs_credentials_witness :
  exists env_var : string,
    In env_var ValidateMetadata.required_env_vars
    /\ run ValidateMetadata.check
         (Sample.doc_world Sample.good_doc ["DOCKERHUB_USERNAME"] Sample.java)
         Sample.java
       = Raises (env_var_required env_var).
Proof.
  destruct (validate_metadata_needs_credentials
              (Sample.doc_world Sample.good_doc ["DOCKERHUB_USERNAME"] Sample.java))
    as (v & Hv & _ & Hrun & _).
  - apply sample_world_ok.
  - right. simpl. intros [H|[]]. discriminate H.
  - exists v. split; [exact Hv | apply Hrun].
Defined.

(** The run over one Java connector with a short documentation file, with the
    credentials set: every check returns a result. *)
Lemma sample_run_all_return :
  Forall (fun pc => exists r,
              run (snd pc)
                  (Sample.doc_world "# Foo" Sample.credentials Sample.java) (fst pc)
              = Returns (Some r))
         (list_prod
            (cli.connectors_of
               (Sample.doc_world "# Foo" Sample.credentials Sample.java)
               ["source-foo-strict-encrypt"])
            ENABLED_CHECKS).
Proof.
  change (cli.connectors_of _ _) with [Sample.java].
  unfold ENABLED_CHECKS. cbn [list_prod map app].
  repeat constructor; cbn [fst snd]; eexists; vm_compute; reflexivity.
Qed.

Lemma run_verdict_witness :
  (exists results : list CheckResult,
      cli.echoed (cli.run (Sample.doc_world "# Foo" Sample.credentials Sample.java)
                          ["source-foo-strict-encrypt"])
      = map Some results
      /\ cli.exit (cli.run (Sample.doc_world "# Foo" Sample.credentials Sample.java)
                           ["source-foo-strict-encrypt"])
         = verdict results)
  /\ cli.exit (cli.run (Sample.doc_world "# Foo" ["DOCKERHUB_PASSWORD"] Sample.java) ["source-foo"])
     = Raises (env_var_required "DOCKERHUB_USERNAME").
Proof.
  split.
  - destruct (proj1 (run_verdict
                       (Sample.doc_world "# Foo" Sample.credentials Sample.java)
                       ENABLED_CHECKS ["source-foo-strict-encrypt"]))
      as (results & _ & Hecho & Hexit & _).
    + intros conn c Hin.
      exact (proj1 (Forall_forall _ _) sample_run_all_return (conn, c) Hin).
    + exists results. split; [exact Hecho | exact Hexit].
  - refine (proj2 (proj2 (run_verdict (Sample.doc_world "# Foo" ["DOCKERHUB_PASSWORD"]
                                           Sample.java)
                            ENABLED_CHECKS ["source-foo"])
                     [] _ [] Sample.java ValidateMetadata.check _ _ _ _)).
    + reflexivity.
    + constructor.
    + vm_compute. reflexivity.
Defined.

(** C4, the claim as it was written, fails: with DOCKERHUB_USERNAME not set
    the run over one connector stops at the first of its twelve pairs with a
    [ValueError]; it ends in failure although no result, failed or not, was
    produced. *)
Lemma run_stops_without_failed_result :
  List.length (list_prod
                 (cli.connectors_of
                    (Sample.doc_world "# Foo" ["DOCKERHUB_PASSWORD"] Sample.java)
                    ["source-foo"])
                 ENABLED_CHECKS) = 12
  /\ cli.run (Sample.doc_world "# Foo" ["DOCKERHUB_PASSWORD"] Sample.java) ["source-foo"]
     = {| cli.echoed := [];
          cli.exit := Raises (env_var_required "DOCKERHUB_USERNAME") |}
  /\ ~ (exists r, In (Some r)
                     (cli.echoed
                        (cli.run (Sample.doc_world "# Foo" ["DOCKERHUB_PASSWORD"]
                                    Sample.java)
                                 ["source-foo"]))
                  /\ status r = FAILED).
Proof.
  assert (E : cli.run (Sample.doc_world "# Foo" ["DOCKERHUB_PASSWORD"] Sample.java) ["source-foo"]
              = {| cli.echoed := [];
                   cli.exit := Raises (env_var_required "DOCKERHUB_USERNAME") |})
    by (vm_compute; reflexivity).
  split; [reflexivity|]. split; [exact E|].
  rewrite E. intros (r & Hin & _). destruct Hin.
Qed.



Lemma documentation_structure_rules_witness :
  CheckDocumentationStructure._run
    (Sample.doc_world Sample.good_doc [] Sample.named) Sample.named
  = result CheckDocumentationStructure.name true "Documentation guidelines are followed"
  /\ CheckDocumentationStructure._run
       (Sample.doc_world Sample.good_doc [] Sample.java) Sample.java
     = result CheckDocumentationStructure.name true "Documentation guidelines are followed"
  /\ CheckDocumentationStructure._run
       (Sample.doc_world Sample.good_doc [] Sample.nameless) Sample.nameless
     = Raises (KeyError "name")
  /\ CheckDocumentationStructure._run
       (Sample.doc_world Sample.good_doc [] Sample.misnamed) Sample.misnamed
     = Raises AttributeError.
Proof.
  split; [|split; [|split]].
  - destruct (documentation_structure_rules
                (Sample.doc_world Sample.good_doc [] Sample.named)
                Sample.named Sample.doc_path Sample.good_doc "# foo" _
                eq_refl eq_refl eq_refl) as (Hrule & _ & _).
    apply (Hrule true).
    + right. exists "Foo". repeat split.
    + reflexivity.
    + reflexivity.
  - destruct (documentation_structure_rules
                (Sample.doc_world Sample.good_doc [] Sample.java)
                Sample.java Sample.doc_path Sample.good_doc "# foo" _
                eq_refl eq_refl eq_refl) as (Hrule & _ & _).
    apply (Hrule true).
    + left. split; reflexivity.
    + reflexivity.
    + reflexivity.
  - destruct (documentation_structure_rules
                (Sample.doc_world Sample.good_doc [] Sample.nameless)
                Sample.nameless Sample.doc_path Sample.good_doc "# foo" _
                eq_refl eq_refl eq_refl) as (_ & Hkey & _).
    apply Hkey; reflexivity.
  - destruct (documentation_structure_rules
                (Sample.doc_world Sample.good_doc [] Sample.misnamed)
                Sample.misnamed Sample.doc_path Sample.good_doc "# foo" _
                eq_refl eq_refl eq_refl) as (_ & _ & Hattr).
    apply (Hattr (VInt 7)); [reflexivity | reflexivity | discriminate].
Defined.

(** C7, the claim as it was written, fails: in a documentation that opens
    with a blank line, the first line that is not blank is the expected
    heading and every required section is there, and yet the result is
    failed, because the rule is applied to the first line. *)
Lemma documentation_blank_first_line_fails :
  first_non_blank (PyStr.splitlines Sample.late_doc) = Some "# Foo"
  /\ missing_sections (map PyStr.lower (PyStr.splitlines Sample.late_doc)) = []
  /\ CheckDocumentationStructure._run
       (Sample.doc_world Sample.late_doc [] Sample.named) Sample.named
     = result CheckDocumentationStructure.name false
         ("Connector documentation does not follow the guidelines. "
          ++ "The connector name is not used as the main header in the documentation. "
          ++ "The connector name is not used as the main header in the documentation").
Proof. repeat split; vm_compute; reflexivity. Qed.

(** * Further properties of the run *)

Section RunFurther.

Lemma evaluate_inv (w : World) (pairs : list (Connector * Check))
  (outs : list (option CheckResult)) :
  cli.evaluate w pairs = (outs, None) -> Forall2 (evaluates_to w) pairs outs.
Proof.
  revert outs. induction pairs as [|[conn c] pairs IH]; intros outs H.
  - injection H as <-. constructor.
  - cbn [cli.evaluate] in H. destruct (run c w conn) as [o|e] eqn:E; [|discriminate].
    destruct (cli.evaluate w pairs) as [rs stopped].
    injection H as <- ->. constructor; [exact E | now apply IH].
Qed.

Lemma evaluate_stopped (w : World) (pairs : list (Connector * Check))
  (outs : list (option CheckResult)) (e : PyExn) :
  cli.evaluate w pairs = (outs, Some e) ->
  exists pre conn c post,
    pairs = (pre ++ (conn, c) :: post)%list
    /\ Forall2 (evaluates_to w) pre outs
    /\ run c w conn = Raises e.
Proof.
  revert outs. induction pairs as [|[conn c] pairs IH]; intros outs H.
  - discriminate.
  - cbn [cli.evaluate] in H. destruct (run c w conn) as [o|e'] eqn:E.
    + destruct (cli.evaluate w pairs) as [rs stopped].
      injection H as <- ->.
      destruct (IH rs eq_refl) as (pre & conn' & c' & post & -> & Hpre & Hraise).
      exists ((conn, c) :: pre), conn', c', post.
      repeat split; [constructor; assumption | assumption].
    + injection H as <- <-. exists [], conn, c, pairs.
      repeat split; [constructor | assumption].
Qed.

Lemma failed_checks_none (outs : list (option CheckResult)) :
  In None outs -> cli.failed_checks outs = Raises AttributeError.
Proof.
  induction outs as [|[r|] outs IH]; intros H.
  - destruct H.
  - destruct H as [H|H]; [discriminate|].
    cbn [cli.failed_checks]. now rewrite (IH H).
  - reflexivity.
Qed.

Lemma failed_checks_keeps (outs : list (option CheckResult))
  (failed : list CheckResult) (r : CheckResult) :
  cli.failed_checks outs = Returns failed ->
  In (Some r) outs -> status r = FAILED -> In r failed.
Proof.
  revert failed. induction outs as [|[r'|] outs IH]; intros failed H Hin Hr.
  - destruct Hin.
  - cbn [cli.failed_checks] in H.
    destruct (cli.failed_checks outs) as [fs|]; [|discriminate].
    cbn [bind] in H. injection H as <-.
    destruct Hin as [[= ->]|Hin].
    + rewrite Hr. now left.
    + destruct (status_eqb (status r') FAILED); [right|]; now apply IH.
  - discriminate.
Qed.

Lemma Forall2_in_l {A B : Type} (R : A -> B -> Prop) (l : list A) (l' : list B)
  (a : A) : Forall2 R l l' -> In a l -> exists b, In b l' /\ R a b.
Proof.
  induction 1 as [|x y l l' HR _ IH]; intros Hin; [destruct Hin|].
  destruct Hin as [->|Hin].
  - exists y. split; [now left | assumption].
  - destruct (IH Hin) as (b & Hb & Hab). exists b. split; [now right | assumption].
Qed.

(** X1. Whatever the registry, when every evaluation returns and one of them
    returns nothing, every pair is still evaluated and echoed, and the
    command then ends with [AttributeError], raised where the failed results
    are collected. *)
Theorem run_with_missing_result :
  forall (w : World) (registry : list Check) (names : list string)
         (outs : list (option CheckResult)),
    Forall2 (evaluates_to w) (list_prod (cli.connectors_of w names) registry) outs ->
    In None outs ->
    cli.run_checks w registry names
    = {| cli.echoed := outs; cli.exit := Raises AttributeError |}.
Proof.
  intros w registry names outs Hall Hnone. unfold cli.run_checks.
  rewrite (evaluate_all _ _ _ Hall). now rewrite (failed_checks_none _ Hnone).
Qed.

(** X2. With the enabled checks, a run over at least one connector never ends
    normally: the version check, which applies to every language, gives a
    failed result or nothing at all, so the command ends with an exception
    whatever the connectors are. *)
Theorem run_never_ends_normally :
  forall (w : World) (names : list string),
    set_iter_ok w -> names <> [] ->
    exists e, cli.exit (cli.run w names) = Raises e.
Proof.
  intros w names Hw Hnames.
  destruct (connectors_of_nonempty w names Hw Hnames) as (conn & rest & Hc).
  unfold cli.run, cli.run_checks.
  destruct (cli.evaluate w _) as [outs [e|]] eqn:E; cbn [cli.exit]; [eauto|].
  apply evaluate_inv in E.
  assert (Hin : In (conn, CheckVersionFollowsSemver.check)
                   (list_prod (cli.connectors_of w names) ENABLED_CHECKS)).
  { apply in_prod; [rewrite Hc; now left|].
    unfold ENABLED_CHECKS. simpl. tauto. }
  destruct (Forall2_in_l _ _ _ _ E Hin) as (o & Ho & Hrun).
  unfold evaluates_to, run in Hrun. cbn [fst snd] in Hrun.
  cbn [CheckVersionFollowsSemver.check check_of applies_to_connector_languages _run]
    in Hrun.
  rewrite all_languages in Hrun. cbn [negb] in Hrun.
  pose proof (version_check_never_passes w conn) as Hnp. rewrite Hrun in Hnp.
  destruct o as [r|].
  - simpl in Hnp.
    destruct (cli.failed_checks outs) as [failed|e] eqn:F; cbn [bind]; [|eauto].
    pose proof (failed_checks_keeps _ _ _ F Ho Hnp) as Hr.
    destruct failed; [destruct Hr | eauto].
  - rewrite (failed_checks_none _ Ho). cbn [bind]. eauto.
Qed.

End RunFurther.

Lemma run_with_missing_result_witness :
  exists outs,
    In None outs
    /\ cli.run_checks
         (Sample.manifest_world "1.2.3" (Sample.tagged PYTHON "1.2.3"))
         [CheckConnectorUsesPoetry.check; CheckVersionFollowsSemver.check]
         ["source-foo"]
       = {| cli.echoed := outs; cli.exit := Raises AttributeError |}.
Proof.
  exists [Some (create_check_result CheckConnectorUsesPoetry.name false
                  "poetry.lock file is missing"); None].
  split; [right; left; reflexivity|].
  apply run_with_missing_result.
  - change (cli.connectors_of _ _) with [Sample.tagged PYTHON "1.2.3"].
    cbn [list_prod map app].
    constructor; [vm_compute; reflexivity|].
    constructor; [vm_compute; reflexivity|]. constructor.
  - right. left. reflexivity.
Defined.

Lemma run_never_ends_normally_witness :
  exists e,
    cli.exit (cli.run (Sample.doc_world Sample.good_doc Sample.credentials Sample.named)
                      ["source-foo"]) = Raises e.
Proof.
  apply run_never_ends_normally; [apply sample_world_ok | discriminate].
Defined.

(** * The changelog check *)

Section Changelog.

Import CheckChangelogEntry.

Lemma line_step_fold (version : string) (lines : list string) (a f : bool) :
  snd (fold_left (line_step version) lines (a, f))
  = f || (if a then existsb (fun x => PyStr.contains x version) lines
          else entry_after_heading version lines).
Proof.
  revert a f. induction lines as [|l ls IH]; intros a f.
  - cbn [fold_left snd existsb entry_after_heading]. destruct a, f; reflexivity.
  - cbn [fold_left]. unfold line_step at 2. cbn [entry_after_heading existsb].
    fold (is_changelog_heading l).
    destruct a, (is_changelog_heading l), (PyStr.contains l version), f;
      cbn [andb orb]; rewrite IH; cbn [orb]; reflexivity.
Qed.

Lemma entry_after_heading_iff (version : string) (lines : list string) :
  entry_after_heading version lines = true
  <-> exists pre heading post line,
        lines = (pre ++ heading :: post)%list
        /\ is_changelog_heading heading = true
        /\ In line (heading :: post)
        /\ PyStr.contains line version = true.
Proof.
  induction lines as [|l ls IH]; cbn [entry_after_heading].
  - split; [discriminate|]. intros (pre & h & post & x & H & _).
    destruct pre; discriminate.
  - destruct (is_changelog_heading l) eqn:E.
    + rewrite existsb_exists. split.
      * intros (x & Hin & Hx). exists [], l, ls, x. auto.
      * intros (pre & h & post & x & H & Hh & Hin & Hx).
        exists x. split; [|assumption].
        destruct pre as [|q pre]; injection H as -> ->; [assumption|].
        right. apply in_or_app. right. assumption.
    + rewrite IH. split.
      * intros (pre & h & post & x & -> & Hh & Hin & Hx).
        exists (l :: pre), h, post, x. auto.
      * intros (pre & h & post & x & H & Hh & Hin & Hx).
        destruct pre as [|q pre]; injection H as -> ->; [congruence|].
        exists pre, h, post, x. auto.
Qed.

(** X4. For a connector whose documentation file is there and readable, the
    changelog check always gives a passed or failed result, and it passes
    exactly when some line holds "# changelog", in any letter case, and that
    line or a later one holds the version of the connector. *)
Theorem changelog_entry_rule :
  forall (w : World) (conn : Connector) (p : Path) (content : string),
    documentation_file_path conn = Some p ->
    fs.lookup (files w) p = Some (File (Text content)) ->
    decided (_run w conn)
    /\ (passes (_run w conn)
        <-> exists pre heading post line,
              PyStr.splitlines content = (pre ++ heading :: post)%list
              /\ is_changelog_heading heading = true
              /\ In line (heading :: post)
              /\ PyStr.contains line (version conn) = true).
Proof.
  intros w conn p content Hp Hfile.
  rewrite <- entry_after_heading_iff.
  unfold _run, fs.exists_, fs.read_text. rewrite Hp, Hfile. cbn [negb bind].
  pose proof (line_step_fold (version conn) (PyStr.splitlines content) false false)
    as Hfold.
  destruct (fold_left _ _ _) as [a found]. cbn [snd orb] in Hfold. subst found.
  destruct (entry_after_heading _ _); cbn [negb]; split.
  - left. reflexivity.
  - split; [reflexivity|]. intros _. eexists. split; reflexivity.
  - right. reflexivity.
  - split; [|discriminate]. intros (r & [= <-] & Hr). discriminate Hr.
Qed.

End Changelog.

Lemma changelog_entry_rule_witness :
  decided (CheckChangelogEntry._run
             (Sample.doc_world Sample.good_doc [] Sample.java) Sample.java).
Proof.
  exact (proj1 (changelog_entry_rule
                  (Sample.doc_world Sample.good_doc [] Sample.java) Sample.java
                  Sample.doc_path Sample.good_doc eq_refl eq_refl)).
Defined.

(** * Checks that always decide *)

Section Deciding.

Lemma decided_result (n : string) (b : bool) (m : string) : decided (result n b m).
Proof. destruct b; simpl; auto. Qed.

Ltac decide_run :=
  repeat first
    [ apply decided_result
    | match goal with
      | |- decided (if ?b then _ else _) => destruct b
      | |- decided (match ?x with _ => _ end) => destruct x
      end ].

Lemma decided_not_skipped (c : Check) (w : World) (conn : Connector) :
  decided (_run c w conn) ->
  exists r, run c w conn = Returns (Some r).
Proof.
  intros H. unfold run. destruct (negb _); [eauto|].
  destruct (_run c w conn) as [[r|]|]; simpl in H; try contradiction. eauto.
Qed.

(** X5. Six checks never raise and never return nothing: on every connector
    and every file system, the documentation-existence, icon, HTTPS-only,
    Poetry, base-image and PyPi checks evaluate to a passed or failed result,
    and running them gives a result. *)
Theorem six_checks_always_decide :
  forall c : Check,
    In c [CheckDocumentationExists.check; CheckConnectorIconIsAvailable.check;
          CheckConnectorUsesHTTPSOnly.check; CheckConnectorUsesPoetry.check;
          CheckConnectorUsesPythonBaseImage.check; CheckPublishToPyPiIsEnabled.check] ->
    forall (w : World) (conn : Connector),
      decided (_run c w conn)
      /\ exists r, run c w conn = Returns (Some r).
Proof.
  intros c Hc w conn.
  assert (H : decided (_run c w conn)).
  { repeat (destruct Hc as [<-|Hc]); [..|destruct Hc]; cbn [_run check_of].
    - unfold CheckDocumentationExists.check, check_of,
        CheckDocumentationExists._run; cbn [_run]. decide_run.
    - unfold CheckConnectorIconIsAvailable.check, check_of,
        CheckConnectorIconIsAvailable._run; cbn [_run]. decide_run.
    - unfold CheckConnectorUsesHTTPSOnly.check, check_of,
        CheckConnectorUsesHTTPSOnly._run; cbn [_run]. decide_run.
    - unfold CheckConnectorUsesPoetry.check, check_of,
        CheckConnectorUsesPoetry._run; cbn [_run]. decide_run.
    - unfold CheckConnectorUsesPythonBaseImage.check, check_of,
        CheckConnectorUsesPythonBaseImage._run; cbn [_run]. decide_run.
    - unfold CheckPublishToPyPiIsEnabled.check, check_of,
        CheckPublishToPyPiIsEnabled._run; cbn [_run]. decide_run. }
  split; [exact H | now apply decided_not_skipped].
Qed.

End Deciding.

Lemma six_checks_always_decide_witness :
  decided (_run CheckConnectorUsesHTTPSOnly.check
             (Sample.world [(Sample.source_path, File (Undecodable ["GIF89a"]))]
                [] VNone Sample.java)
             Sample.java).
Proof.
  refine (proj1 (six_checks_always_decide CheckConnectorUsesHTTPSOnly.check _ _ _)).
  simpl. tauto.
Defined.

(** * The licence check *)

Section Licence.

Import CheckConnectorLicense.

Lemma ne_str_false (v : PyVal) (s : string) : ne_str v s = false <-> v = VStr s.
Proof.
  destruct v; simpl; split; try discriminate.
  - intros H. apply negb_false_iff, String.eqb_eq in H. now subst.
  - intros [= ->]. now rewrite String.eqb_refl.
Qed.

Lemma accepted_not_empty (l : string) : accepted_licence l = true -> l <> "".
Proof. intros H ->. discriminate H. Qed.

(** X6. For a connector whose metadata declares a licence string: a Java
    connector passes exactly when the licence is MIT or ELv2 in any letter
    case, and its manifest is never loaded; a Python or low-code connector
    with a manifest passes exactly when, moreover, the manifest declares the
    very same string, letter case included.  An exception of the TOML loader
    is not caught. *)
Theorem licence_rule :
  forall (w : World) (conn : Connector) (md : PyDict) (l : string),
    metadata conn = Some md ->
    Py.lookup "license" md = Some (VStr l) ->
    (language conn = JAVA ->
     decided (_run w conn) /\ (passes (_run w conn) <-> accepted_licence l = true))
    /\ (forall doc,
           language conn <> JAVA ->
           fs.exists_ (files w)
             (pathlib.div (code_directory conn) consts.PYPROJECT_FILE_NAME) = true ->
           toml_load w (pathlib.div (code_directory conn) consts.PYPROJECT_FILE_NAME)
           = Returns doc ->
           decided (_run w conn)
           /\ (passes (_run w conn)
               <-> accepted_licence l = true
                   /\ Py.get doc ["tool"; "poetry"; "license"] VNone = VStr l))
    /\ (forall e,
           language conn <> JAVA ->
           fs.exists_ (files w)
             (pathlib.div (code_directory conn) consts.PYPROJECT_FILE_NAME) = true ->
           toml_load w (pathlib.div (code_directory conn) consts.PYPROJECT_FILE_NAME)
           = Raises e ->
           accepted_licence l = true ->
           _run w conn = Raises e).
Proof.
  intros w conn md l Hmd Hl.
  assert (Hne : md <> []) by (intros ->; discriminate Hl).
  assert (Hrun : _run w conn =
                 if negb (accepted_licence l) then
                   result name false
                     ("Connector is licensed under " ++ l
                      ++ ". Please use MIT or Elv2 license")
                 else
                   let pyproject_path :=
                     pathlib.div (code_directory conn) consts.PYPROJECT_FILE_NAME in
                   if language_in (language conn) [LOW_CODE; PYTHON]
                      && fs.exists_ (files w) pyproject_path
                   then
                     pyproject <- toml_load w pyproject_path ;;
                     let poetry_license :=
                       Py.get pyproject ["tool"; "poetry"; "license"] VNone in
                     if Py.truthy poetry_license then
                       if ne_str poetry_license l then
                         result name false
                           ("Connector is licensed under " ++ Py.str poetry_license
                            ++ " in " ++ consts.PYPROJECT_FILE_NAME
                            ++ ", but licensed under " ++ l ++ " in "
                            ++ consts.METADATA_FILE_NAME
                            ++ ". These two files have to be consistent")
                       else result name true
                              "Connector is licensed under MIT or ELv2 license"
                     else
                       result name false
                         ("Connector is missing license in "
                          ++ consts.PYPROJECT_FILE_NAME ++ ". Please add it")
                   else result name true
                          "Connector is licensed under MIT or ELv2 license").
  { unfold _run. rewrite Hmd. cbn [Py.of_metadata Py.get]. rewrite Hl.
    destruct md; [congruence|]. reflexivity. }
  rewrite Hrun. clear Hrun. unfold passes.
  split; [|split].
  - intros ->. cbn [language_in existsb language_eqb orb andb].
    destruct (accepted_licence l); cbn [negb]; (split; [simpl; auto|]).
    + split; [reflexivity|]. intros _. eexists. split; reflexivity.
    + split; [|discriminate]. intros (r & [= <-] & Hr). discriminate Hr.
  - intros doc Hlang Hexists Hload. rewrite Hexists, Hload.
    assert (Hin : language_in (language conn) [LOW_CODE; PYTHON] = true)
      by (destruct (language conn); [congruence | reflexivity | reflexivity]).
    rewrite Hin. cbn [andb bind].
    destruct (accepted_licence l) eqn:Ha; cbn [negb].
    + destruct (Py.truthy _) eqn:Ht.
      * destruct (ne_str _ l) eqn:Hn; (split; [simpl; auto|]).
        -- split.
           ++ intros (r & [= <-] & Hr). discriminate Hr.
           ++ intros [_ Hv]. apply ne_str_false in Hv. congruence.
        -- apply ne_str_false in Hn. split; [auto|].
           intros _. eexists. split; reflexivity.
      * split; [simpl; auto|]. split.
        -- intros (r & [= <-] & Hr). discriminate Hr.
        -- intros [_ Hv]. rewrite Hv in Ht. simpl in Ht.
           apply negb_false_iff, String.eqb_eq in Ht.
           now apply accepted_not_empty in Ha.
    + split; [simpl; auto|]. split.
      * intros (r & [= <-] & Hr). discriminate Hr.
      * intros [H _]. discriminate H.
  - intros e Hlang Hexists Hload Ha. rewrite Ha, Hexists, Hload.
    assert (Hin : language_in (language conn) [LOW_CODE; PYTHON] = true)
      by (destruct (language conn); [congruence | reflexivity | reflexivity]).
    rewrite Hin. reflexivity.
Qed.

End Licence.

Lemma licence_rule_witness :
  passes (CheckConnectorLicense._run
            (Sample.manifest_world "1.2.3" (Sample.tagged PYTHON "1.2.3"))
            (Sample.tagged PYTHON "1.2.3")).
Proof.
  refine (proj2 (proj2 (proj1 (proj2
            (licence_rule (Sample.manifest_world "1.2.3" (Sample.tagged PYTHON "1.2.3"))
               (Sample.tagged PYTHON "1.2.3") _ "MIT" eq_refl eq_refl))
            (Sample.pyproject "1.2.3") _ eq_refl eq_refl)) _).
  - discriminate.
  - split; reflexivity.
Defined.

(** * The version check and the manifest *)

Section VersionManifest.

Import CheckVersionFollowsSemver.

(** X7. For a connector whose tag is a valid semantic version: a Java
    connector returns nothing and its manifest is never loaded; for a Python
    or low-code connector with a manifest, an error of the TOML loader that
    is a [ValueError] (such as a decoding error) is reported as a failed
    result saying that the tag does not follow Semantic Versioning, any other
    error of the loader is raised, and a manifest without the key "tool"
    raises [KeyError]. *)
Theorem version_check_manifest_errors :
  forall (w : World) (conn : Connector) (md : PyDict) (tag : PyVal)
         (v : semver.Version),
    metadata conn = Some md ->
    Py.lookup "dockerImageTag" md = Some tag ->
    semver.parse (Py.str tag) = Returns v ->
    (language conn = JAVA -> _run w conn = Returns None)
    /\ (forall e,
           language conn <> JAVA ->
           fs.exists_ (files w)
             (pathlib.div (code_directory conn) consts.PYPROJECT_FILE_NAME) = true ->
           toml_load w (pathlib.div (code_directory conn) consts.PYPROJECT_FILE_NAME)
           = Raises e ->
           _run w conn =
           if is_ValueError e
           then result name false
                  ("Connector version " ++ Py.str tag
                   ++ " does not follow Semantic Versioning")
           else Raises e)
    /\ (forall d,
           language conn <> JAVA ->
           fs.exists_ (files w)
             (pathlib.div (code_directory conn) consts.PYPROJECT_FILE_NAME) = true ->
           toml_load w (pathlib.div (code_directory conn) consts.PYPROJECT_FILE_NAME)
           = Returns (VDict d) ->
           Py.lookup "tool" d = None ->
           _run w conn = Raises (KeyError "tool")).
Proof.
  intros w conn md tag v Hmd Htag Hparse.
  unfold _run, try_body. rewrite Hmd, Htag, Hparse. cbn [bind].
  split; [|split].
  - intros ->. reflexivity.
  - intros e Hlang Hexists Hload. rewrite Hexists, Hload.
    destruct (language conn); [congruence|..]; reflexivity.
  - intros d Hlang Hexists Hload Htool. rewrite Hexists, Hload.
    destruct (language conn); [congruence|..];
      cbn [language_in existsb language_eqb orb andb bind Py.getitem];
      rewrite Htool; reflexivity.
Qed.

End VersionManifest.

Lemma version_check_manifest_errors_witness :
  CheckVersionFollowsSemver._run
    (Sample.broken_manifest_world (Sample.tagged PYTHON "1.2.3"))
    (Sample.tagged PYTHON "1.2.3")
  = result CheckVersionFollowsSemver.name false
      "Connector version 1.2.3 does not follow Semantic Versioning".
Proof.
  refine (proj1 (proj2
            (version_check_manifest_errors
               (Sample.broken_manifest_world (Sample.tagged PYTHON "1.2.3"))
               (Sample.tagged PYTHON "1.2.3")
               _ (VStr "1.2.3") _ eq_refl eq_refl _))
            TomlDecodeError _ eq_refl eq_refl).
  - vm_compute. reflexivity.
  - discriminate.
Defined.

(** * The metadata check with its credentials *)

Section MetadataValid.

Import ValidateMetadata.

Lemma require_env_ok (vars env : list string) :
  (forall v, In v vars -> In v env) -> require_env vars env = Returns tt.
Proof.
  induction vars as [|x vars IH]; intros H; [reflexivity|].
  cbn [require_env]. rewrite (proj2 (mem_In x env)) by (apply H; now left).
  cbn [negb]. apply IH. intros v Hv. apply H. now right.
Qed.

(** X8. With both credential variables set, in whatever order the set of
    required variables is iterated, the metadata check passes exactly when
    the metadata file and the documentation file exist and the validator
    exits with code 0; an exception of the validator is raised, not turned
    into a result, and the validator is not called when a file is missing. *)
Theorem validate_metadata_rule :
  forall (w : World) (conn : Connector),
    set_iter_ok w ->
    In "DOCKERHUB_USERNAME" (environ w) ->
    In "DOCKERHUB_PASSWORD" (environ w) ->
    let metadata_path := pathlib.div (code_directory conn) consts.METADATA_FILE_NAME in
    (passes (_run w conn)
     <-> exists doc output,
           documentation_file_path conn = Some doc
           /\ fs.exists_ (files w) metadata_path = true
           /\ fs.exists_ (files w) doc = true
           /\ validate_metadata w metadata_path doc = Returns (0%Z, output))
    /\ (forall doc e,
           documentation_file_path conn = Some doc ->
           fs.exists_ (files w) metadata_path = true ->
           fs.exists_ (files w) doc = true ->
           validate_metadata w metadata_path doc = Raises e ->
           _run w conn = Raises e)
    /\ (fs.exists_ (files w) metadata_path = false
        \/ CheckDocumentationExists.doc_exists w conn = false ->
        fails (_run w conn)).
Proof.
  intros w conn Hw Hu Hp metadata_path.
  assert (Henv : require_env (set_iter w required_env_vars) (environ w) = Returns tt).
  { apply require_env_ok. intros v Hv.
    apply (Permutation_in _ (Hw required_env_vars)) in Hv.
    destruct Hv as [<-|[<-|[]]]; assumption. }
  unfold _run. rewrite Henv. cbn [bind]. fold metadata_path.
  unfold passes, fails, CheckDocumentationExists.doc_exists.
  split; [|split].
  - split.
    + intros (r & Hrun & Hr).
      destruct (fs.exists_ (files w) metadata_path) eqn:Em; cbn [negb] in Hrun;
        [|injection Hrun as <-; discriminate Hr].
      destruct (documentation_file_path conn) as [doc|];
        [|injection Hrun as <-; discriminate Hr].
      destruct (fs.exists_ (files w) doc) eqn:Ed;
        [|injection Hrun as <-; discriminate Hr].
      destruct (validate_metadata w metadata_path doc) as [[code output]|e] eqn:Ev;
        [|discriminate Hrun].
      cbn [bind] in Hrun. destruct (code =? 0)%Z eqn:Ec;
        [|injection Hrun as <-; discriminate Hr].
      apply Z.eqb_eq in Ec. subst code. exists doc, output. auto.
    + intros (doc & output & -> & -> & -> & ->). cbn [negb bind Z.eqb].
      eexists. split; reflexivity.
  - intros doc e -> -> -> ->. reflexivity.
  - intros [->|H]; cbn [negb]; [eexists; split; reflexivity|].
    destruct (fs.exists_ (files w) metadata_path); cbn [negb];
      [|eexists; split; reflexivity].
    destruct (documentation_file_path conn) as [doc|];
      [rewrite H|]; eexists; split; reflexivity.
Qed.

End MetadataValid.

Lemma validate_metadata_rule_witness :
  passes (ValidateMetadata._run (Sample.published_world Sample.named) Sample.named).
Proof.
  refine (proj2 (proj1 (validate_metadata_rule
                          (Sample.published_world Sample.named) Sample.named
                          (sample_world_ok _ _ _ _) _ _)) _).
  - simpl. auto.
  - simpl. auto.
  - exists Sample.doc_path, "". repeat split; reflexivity.
Defined.

(** * Further properties of the HTTPS-only check *)

Section HttpsScan.

Import PyStr CheckConnectorUsesHTTPSOnly.

Variable w : World.


Lemma set_add_nodup (x : string) (s : list string) : NoDup s -> NoDup (set_add x s).
Proof.
  intros H. unfold set_add. destruct (mem x s) eqn:E; [assumption|].
  apply mem_not_In in E. apply NoDup_app; [assumption | repeat constructor; auto |].
  intros y Hy [<-|[]]. contradiction.
Qed.

Lemma set_add_in (x y : string) (s : list string) :
  In y (set_add x s) -> y = x \/ In y s.
Proof.
  unfold set_add. destruct (mem x s); [auto|].
  intros H. apply in_app_or in H as [H|[H|[]]]; auto.
Qed.

Lemma fold_nodup (items : list (Path * string)) (acc : list string) :
  NoDup acc -> NoDup (fold_left (file_step w) items acc).
Proof.
  revert acc. induction items as [|[p l] items IH]; intros acc H; [assumption|].
  cbn [fold_left]. apply IH. unfold file_step.
  destruct (line_has_http w p l); [now apply set_add_nodup | assumption].
Qed.

Lemma fold_sound (items : list (Path * string)) (acc : list string) (f : string) :
  In f (fold_left (file_step w) items acc) ->
  In f acc
  \/ exists path line, In (path, line) items
                       /\ line_has_http w path line = true
                       /\ pathlib.str path = f.
Proof.
  revert acc. induction items as [|[p l] items IH]; intros acc H; [now left|].
  cbn [fold_left] in H. apply IH in H as [H|(path & line & Hin & Hl & Hf)].
  - unfold file_step in H. destruct (line_has_http w p l) eqn:E.
    + apply set_add_in in H as [->|H]; [|now left].
      right. exists p, l. repeat split; [now left | assumption].
    + now left.
  - right. exists path, line. repeat split; [now right | assumption..].
Qed.

(** X10. The files that the check reports are exactly the files with a
    scanned line that still holds "http://" after the comment test, the
    marker test and the removal of the allow-listed prefixes; each is listed
    once; the check fails exactly when there is such a file and passes
    exactly when there is none. *)
Theorem reported_files :
  forall conn : Connector,
    NoDup (files_with_http_url w conn)
    /\ (forall f,
           In f (files_with_http_url w conn)
           <-> exists path line,
                 In (path, line) (scanned w conn)
                 /\ line_has_http w path line = true
                 /\ pathlib.str path = f)
    /\ (fails (_run w conn)
        <-> exists path line,
              In (path, line) (scanned w conn) /\ line_has_http w path line = true)
    /\ (passes (_run w conn)
        <-> forall path line,
              In (path, line) (scanned w conn) -> line_has_http w path line = false).
Proof.
  intros conn.
  assert (Hiff : forall f,
             In f (files_with_http_url w conn)
             <-> exists path line,
                   In (path, line) (scanned w conn)
                   /\ line_has_http w path line = true
                   /\ pathlib.str path = f).
  { intros f. split.
    - intros H. apply fold_sound in H as [[]|H]. exact H.
    - intros (path & line & Hin & Hl & <-). now apply fold_reports with (line := line). }
  split; [apply fold_nodup; constructor|]. split; [exact Hiff|].
  unfold fails, passes, _run.
  destruct (files_with_http_url w conn) as [|f fs] eqn:E.
  - assert (Hnone : forall path line,
               In (path, line) (scanned w conn) -> line_has_http w path line = false).
    { intros path line Hin. destruct (line_has_http w path line) eqn:El; [|reflexivity].
      destruct (proj2 (Hiff (pathlib.str path))); eauto. }
    split; split.
    + intros (r & [= <-] & Hr). discriminate Hr.
    + intros (path & line & Hin & Hl). rewrite (Hnone _ _ Hin) in Hl. discriminate.
    + intros _. exact Hnone.
    + intros _. eexists. split; reflexivity.
  - destruct (proj1 (Hiff f) (or_introl eq_refl)) as (path & line & Hin & Hl & _).
    split; split.
    + intros _. eauto.
    + intros _. eexists. split; reflexivity.
    + intros (r & [= <-] & Hr). discriminate Hr.
    + intros Hnone. rewrite (Hnone _ _ Hin) in Hl. discriminate.
Qed.

End HttpsScan.

Section HttpsUrls.

Import PyStr CheckConnectorUsesHTTPSOnly.

Variable w : World.
Hypothesis Hw : set_iter_ok w.

Lemma startswith_cons (c a : ascii) (s p : string) :
  startswith (String c s) (String a p) = Ascii.eqb c a && startswith s p.
Proof. reflexivity. Qed.

Lemma replace_go_miss (old new s : string) (c : ascii) :
  startswith (String c s) old = false ->
  replace_go old new 0 (String c s) = String c (replace_go old new 0 s).
Proof. intros H. cbn [replace_go]. now rewrite H. Qed.

Lemma eqb_false (c d : ascii) : c <> d -> Ascii.eqb c d = false.
Proof. intros H. now apply Ascii.eqb_neq. Qed.

(** An "http://" followed by a character that opens neither an allow-listed
    prefix nor a new "http://" is still there after one replacement. *)
Lemma http_survives (prefix : string) (s : string) :
  In prefix ignored_url_prefixes ->
  (exists a c b, s = a ++ "http://" ++ String c b
                 /\ c <> "h"%char /\ c <> "j"%char /\ c <> "l"%char) ->
  exists a c b, replace s prefix "" = a ++ "http://" ++ String c b
                /\ c <> "h"%char /\ c <> "j"%char /\ c <> "l"%char.
Proof.
  intros Hin (a & c & b & -> & Hh & Hj & Hl).
  pose proof (eqb_false _ _ Hh) as Eh. pose proof (eqb_false _ _ Hj) as Ej.
  pose proof (eqb_false _ _ Hl) as El.
  destruct Hin as [<-|[<-|[]]]; cbn [replace].
  - destruct (replace_go_keeps "http://json-schema.org" "" "http://" (String c b))
      with (a := a) (skip := 0) as [a' Ha'].
    + unfold starts_clear. overlap_chain.
    + cbn [append].
      rewrite replace_go_miss by (rewrite !startswith_cons, Ej; reflexivity).
      do 6 (rewrite replace_go_miss by reflexivity). reflexivity.
    + apply Nat.le_0_l.
    + exists a', c, (replace_go "http://json-schema.org" "" 0 b).
      rewrite Ha'. rewrite replace_go_miss by (rewrite startswith_cons, Eh; reflexivity).
      auto.
  - destruct (replace_go_keeps "http://localhost" "" "http://" (String c b))
      with (a := a) (skip := 0) as [a' Ha'].
    + unfold starts_clear. overlap_chain.
    + cbn [append].
      rewrite replace_go_miss by (rewrite !startswith_cons, El; reflexivity).
      do 6 (rewrite replace_go_miss by reflexivity). reflexivity.
    + apply Nat.le_0_l.
    + exists a', c, (replace_go "http://localhost" "" 0 b).
      rewrite Ha'. rewrite replace_go_miss by (rewrite startswith_cons, Eh; reflexivity).
      auto.
Qed.

(** X11. The scan does not depend on letter case and is not limited to one
    host: a line that is no comment, has no marker and holds, once lowered,
    "http://" followed by any character other than h, j and l reports its
    file. *)
Theorem any_http_url_is_reported :
  forall (path : Path) (line a b : string) (c : ascii),
    lower line = a ++ "http://" ++ String c b ->
    c <> "h"%char -> c <> "j"%char -> c <> "l"%char ->
    _line_is_comment line path = false ->
    contains (lower line) ignore_comment = false ->
    line_has_http w path line = true.
Proof.
  intros path line a b c Hline Hh Hj Hl Hcomment Hmarker.
  unfold line_has_http. rewrite line_is_comment_lower, Hcomment, Hmarker.
  assert (H0 : exists a c b, lower line = a ++ "http://" ++ String c b
                             /\ c <> "h"%char /\ c <> "j"%char /\ c <> "l"%char)
    by eauto 8.
  assert (Hfinal : exists a c b,
             strip_prefixes (set_iter w ignored_url_prefixes) (lower line)
             = a ++ "http://" ++ String c b
             /\ c <> "h"%char /\ c <> "j"%char /\ c <> "l"%char).
  { destruct (prefix_order w Hw) as [-> | ->]; cbn [strip_prefixes fold_left];
      apply http_survives; [simpl; auto | | simpl; auto |];
      apply http_survives; simpl; auto. }
  destruct Hfinal as (a' & c' & b' & -> & _). apply contains_mid.
Qed.

Lemma localhost_clear_before_itself (b : string) :
  starts_clear "http://localhost" ("http://localhost" ++ b).
Proof. unfold starts_clear. overlap_chain. Qed.

Lemma json_schema_clear_before_localhost (b : string) :
  starts_clear "http://json-schema.org" ("http://localhost" ++ b).
Proof. unfold starts_clear. overlap_chain. Qed.

Lemma json_schema_not_in_localhost (b : string) :
  replace_go json_schema "" 0 (localhost ++ b)
  = localhost ++ replace_go json_schema "" 0 b.
Proof. reflexivity. Qed.

Lemma strip_localhost (pre post : string) :
  contains (pre ++ post) "http://" = false ->
  strip_prefixes (set_iter w ignored_url_prefixes) (pre ++ localhost ++ post)
  = pre ++ post.
Proof.
  intros H.
  destruct (contains_app_false _ _ _ H) as [Hpre Hpost].
  assert (Hl : replace (pre ++ localhost ++ post) localhost "" = pre ++ post).
  { eapply replace_single; [reflexivity|..].
    - apply localhost_clear_before_itself.
    - apply (contains_longer_false pre "http://" "localhost" Hpre).
    - apply (contains_longer_false post "http://" "localhost" Hpost). }
  assert (Hj : replace (pre ++ post) json_schema "" = pre ++ post).
  { apply replace_go_absent.
    apply (contains_longer_false _ "http://" "json-schema.org" H). }
  assert (Hj' : replace (pre ++ localhost ++ post) json_schema ""
                = pre ++ localhost ++ post).
  { unfold replace, json_schema.
    rewrite replace_go_pass.
    - fold json_schema. rewrite json_schema_not_in_localhost.
      rewrite replace_go_absent; [reflexivity|].
      apply (contains_longer_false post "http://" "json-schema.org" Hpost).
    - apply json_schema_clear_before_localhost.
    - apply (contains_longer_false pre "http://" "json-schema.org" Hpre). }
  destruct (prefix_order w Hw) as [-> | ->]; cbn [strip_prefixes fold_left].
  - now rewrite Hj', Hl.
  - now rewrite Hl, Hj.
Qed.

(** X12. Both allow-listed prefixes are let through, in whichever order the
    set of prefixes is iterated: a line that, in lower case, is a text [pre],
    then http://json-schema.org or http://localhost, then a text [post],
    where [pre] followed by [post] holds no "http://", never reports its
    file. *)
Theorem allow_listed_prefix_is_not_reported :
  forall (prefix : string) (path : Path) (line pre post : string),
    In prefix ignored_url_prefixes ->
    lower line = pre ++ prefix ++ post ->
    contains (pre ++ post) "http://" = false ->
    line_has_http w path line = false.
Proof.
  intros prefix path line pre post Hin Hline Hclean. unfold line_has_http.
  destruct (_line_is_comment _ _); [reflexivity|].
  destruct (contains _ ignore_comment); [reflexivity|].
  rewrite Hline. destruct Hin as [<-|[<-|[]]].
  - fold json_schema. now rewrite (strip_json_schema w Hw).
  - fold localhost. now rewrite strip_localhost.
Qed.

End HttpsUrls.

(** * The order of the breaking-change keys *)

Section KeyOrder.

Import CheckMigrationGuide.

Lemma ascii_compare_refl (a : ascii) : Ascii.compare a a = Eq.
Proof. unfold Ascii.compare. apply N.compare_refl. Qed.

Lemma ascii_lt_trans (a b c : ascii) :
  Ascii.compare a b = Lt -> Ascii.compare b c = Lt -> Ascii.compare a c = Lt.
Proof.
  unfold Ascii.compare. rewrite !N.compare_lt_iff. apply N.lt_trans.
Qed.

(** Below, then not above: below. *)
Lemma compare_lt_le (a b c : string) :
  String.compare a b = Lt -> String.compare b c <> Gt -> String.compare a c = Lt.
Proof.
  revert b c. induction a as [|x a IH]; intros [|y b] [|z c]; cbn [String.compare];
    try congruence.
  destruct (Ascii.compare x y) eqn:Exy; try discriminate.
  - apply Ascii.compare_eq_iff in Exy. subst y.
    destruct (Ascii.compare x z); [apply IH | congruence | congruence].
  - intros _. destruct (Ascii.compare y z) eqn:Eyz; try congruence.
    + apply Ascii.compare_eq_iff in Eyz. subst z. now rewrite Exy.
    + now rewrite (ascii_lt_trans _ _ _ Exy Eyz).
Qed.

Lemma ltb_lt (a b : string) : String.ltb a b = true <-> String.compare a b = Lt.
Proof. unfold String.ltb. destruct (String.compare a b); split; congruence. Qed.

Lemma ltb_asym (a b : string) : String.ltb a b = true -> String.ltb b a = false.
Proof.
  unfold String.ltb. rewrite (String.compare_antisym b a).
  destruct (String.compare a b); simpl; congruence.
Qed.

Lemma ltb_total (a b : string) :
  String.ltb a b = false -> String.ltb b a = false -> a = b.
Proof.
  unfold String.ltb. rewrite (String.compare_antisym b a).
  destruct (String.compare a b) eqn:E; simpl; try congruence.
  intros _ _. now apply String.compare_eq_iff.
Qed.

Lemma ltb_below (x y z : string) :
  String.ltb x z = true -> String.ltb y z = false -> String.ltb x y = true.
Proof.
  intros Hxz Hyz. apply ltb_lt. apply ltb_lt in Hxz.
  apply (compare_lt_le x z y Hxz).
  rewrite String.compare_antisym. unfold String.ltb in Hyz.
  destruct (String.compare y z); simpl; congruence.
Qed.

Ltac insert_cases :=
  repeat (progress
            (cbn [PyStr.insert_desc];
             repeat match goal with
                    | H : String.ltb ?a ?b = _ |- context [String.ltb ?a ?b] =>
                        rewrite H
                    end)).

Lemma insert_desc_comm (x y : string) (l : list string) :
  PyStr.insert_desc x (PyStr.insert_desc y l)
  = PyStr.insert_desc y (PyStr.insert_desc x l).
Proof.
  induction l as [|z l IH].
  - destruct (String.ltb x y) eqn:Exy, (String.ltb y x) eqn:Eyx; insert_cases;
      try reflexivity.
    + rewrite (ltb_asym _ _ Exy) in Eyx. discriminate.
    + now rewrite (ltb_total _ _ Exy Eyx).
  - destruct (String.ltb x z) eqn:Exz, (String.ltb y z) eqn:Eyz.
    + insert_cases. now rewrite IH.
    + pose proof (ltb_below _ _ _ Exz Eyz) as Exy. insert_cases. reflexivity.
    + pose proof (ltb_below _ _ _ Eyz Exz) as Eyx. insert_cases. reflexivity.
    + destruct (String.ltb x y) eqn:Exy, (String.ltb y x) eqn:Eyx; insert_cases;
        try reflexivity.
      * rewrite (ltb_asym _ _ Exy) in Eyx. discriminate.
      * now rewrite (ltb_total _ _ Exy Eyx).
Qed.

(** Sorting does not depend on the order in which the keys come. *)
Lemma sorted_reverse_perm (l l' : list string) :
  Permutation l l' -> PyStr.sorted_reverse l = PyStr.sorted_reverse l'.
Proof.
  unfold PyStr.sorted_reverse.
  induction 1 as [|x l l' _ IH|x y l|l l' l'' _ IH1 _ IH2]; cbn [fold_right].
  - reflexivity.
  - now rewrite IH.
  - apply insert_desc_comm.
  - now rewrite IH1.
Qed.

Lemma sorted_reverse_descending (l : list string) :
  descending l -> PyStr.sorted_reverse l = l.
Proof.
  unfold PyStr.sorted_reverse.
  induction l as [|x l IH]; intros H; [reflexivity|].
  cbn [fold_right]. destruct H as [Hx Hl]. rewrite (IH Hl).
  destruct l as [|y l]; [reflexivity|].
  cbn [PyStr.insert_desc]. now rewrite Hx.
Qed.

(** X13. Whatever the keys of the breaking changes are and in whatever order
    the metadata lists them: with a guide that opens with its title, the
    check gives a passed or failed result, and it passes exactly when the
    recorded heading versions are the keys arranged so that none is followed
    by a larger one in the order of strings. *)
Theorem migration_guide_rule :
  forall (w : World) (conn : Connector) (bc : PyDict) (p : Path)
         (content : string) (rest ks : list string),
    Py.get (Py.of_metadata (metadata conn)) ["releases"; "breakingChanges"] VNone
    = VDict bc ->
    bc <> [] ->
    migration_guide_file_path conn = Some p ->
    fs.lookup (files w) p = Some (File (Text content)) ->
    PyStr.splitlines content = guide_title conn :: rest ->
    Permutation ks (Py.keys bc) ->
    descending ks ->
    decided (_run w conn)
    /\ (passes (_run w conn) <-> heading_versions (PyStr.splitlines content) = ks).
Proof.
  intros w conn bc p content rest ks Hbc Hne Hp Hfile Hlines Hperm Hdesc.
  rewrite (migration_guide_verdict w conn bc p content rest Hbc Hne Hp Hfile Hlines).
  rewrite <- (sorted_reverse_perm _ _ Hperm), (sorted_reverse_descending _ Hdesc).
  unfold passes.
  destruct (strs_eqb ks _) eqn:E.
  - apply strs_eqb_true in E. split; [simpl; auto|].
    split; [auto|]. intros _. eexists. split; reflexivity.
  - split; [simpl; auto|]. split.
    + intros (r & [= <-] & Hr). discriminate Hr.
    + intros H. symmetry in H. apply strs_eqb_true in H. congruence.
Qed.

(** X14. Only the heading lines of a guide count: the recorded versions of
    two texts put together are the versions of the first followed by those
    of the second, and they are the same as if every other line were taken
    out of the guide. *)
Theorem only_heading_lines_count :
  (forall l1 l2 : list string,
      heading_versions (l1 ++ l2)%list
      = (heading_versions l1 ++ heading_versions l2)%list)
  /\ (forall lines : list string,
         heading_versions (filter is_heading lines) = heading_versions lines)
  /\ (forall line : string,
         is_heading line = false -> heading_versions [line] = []).
Proof.
  split; [exact heading_versions_app|]. split.
  - induction lines as [|l ls IH]; [reflexivity|].
    change (l :: ls) with ([l] ++ ls)%list at 2. rewrite heading_versions_app.
    cbn [filter]. destruct (is_heading l) eqn:E.
    + change (l :: filter is_heading ls) with ([l] ++ filter is_heading ls)%list.
      now rewrite heading_versions_app, IH.
    + rewrite IH. unfold heading_versions at 2. cbn [fold_left].
      unfold heading_step. unfold is_heading in E. now rewrite E.
  - intros line E. unfold heading_versions. cbn [fold_left].
    unfold heading_step. unfold is_heading in E. now rewrite E.
Qed.

(** X15. The edges of the migration-guide check.  Without breaking changes it
    passes and reads no file.  With breaking changes: a guide path that is
    missing or names no file gives a failed result; a first line other than
    the title gives a failed result that quotes the title and the line; and
    breaking changes that are no mapping raise [AttributeError] once the
    title was accepted. *)
Theorem migration_guide_edges :
  forall (w : World) (conn : Connector),
    let bc := Py.get (Py.of_metadata (metadata conn))
                     ["releases"; "breakingChanges"] VNone in
    (Py.truthy bc = false ->
     _run w conn
     = result name true "No breaking changes found. A migration guide is not required")
    /\ (Py.truthy bc = true ->
        (migration_guide_file_path conn = None
         \/ exists p, migration_guide_file_path conn = Some p
                      /\ fs.lookup (files w) p = None) ->
        fails (_run w conn))
    /\ (forall p content first rest,
           Py.truthy bc = true ->
           migration_guide_file_path conn = Some p ->
           fs.lookup (files w) p = Some (File (Text content)) ->
           PyStr.splitlines content = first :: rest ->
           first <> guide_title conn ->
           _run w conn
           = result name false
               ("Migration guide file for " ++ technical_name conn
                ++ " does not start with the correct header. Expected '"
                ++ guide_title conn ++ "', got '" ++ first ++ "'"))
    /\ (forall p content rest,
           Py.truthy bc = true ->
           (forall d, bc <> VDict d) ->
           migration_guide_file_path conn = Some p ->
           fs.lookup (files w) p = Some (File (Text content)) ->
           PyStr.splitlines content = guide_title conn :: rest ->
           _run w conn = Raises AttributeError).
Proof.
  intros w conn bc. unfold _run. fold bc. unfold fails.
  split; [|split; [|split]].
  - intros ->. reflexivity.
  - intros -> [->|(p & -> & Hnone)]; cbn [negb].
    + eexists. split; reflexivity.
    + unfold fs.exists_. rewrite Hnone. cbn [negb]. eexists. split; reflexivity.
  - intros p content first rest -> -> Hfile Hlines Hfirst. cbn [negb].
    unfold fs.exists_, fs.read_text. rewrite Hfile. cbn [negb bind].
    rewrite Hlines. cbn [Py.first bind]. fold (guide_title conn).
    apply String.eqb_neq in Hfirst. rewrite Hfirst. reflexivity.
  - intros p content rest Ht Hnd -> Hfile Hlines. rewrite Ht. cbn [negb].
    unfold fs.exists_, fs.read_text. rewrite Hfile. cbn [negb bind].
    rewrite Hlines. cbn [Py.first bind]. fold (guide_title conn).
    rewrite String.eqb_refl. cbn [negb].
    destruct bc; try reflexivity. exfalso. now apply (Hnd d).
Qed.

End KeyOrder.

(** * cli.py: the grouping of the checks by category *)

Section Grouping.

Lemma category_eqb_eq (a b : CheckCategory) : category_eqb a b = true <-> a = b.
Proof. destruct a, b; simpl; split; congruence. Qed.

Lemma category_eqb_refl (a : CheckCategory) : category_eqb a a = true.
Proof. now apply category_eqb_eq. Qed.

Lemma category_eqb_sym (a b : CheckCategory) : category_eqb a b = category_eqb b a.
Proof. destruct a, b; reflexivity. Qed.

Lemma group_of_setdefault (cat key : CheckCategory) (check : Check)
  (d : list (CheckCategory * list Check)) :
  group_of cat (setdefault_append key check d)
  = if category_eqb cat key
    then Some (match group_of key d with
               | Some checks => (checks ++ [check])%list
               | None => [check]
               end)
    else group_of cat d.
Proof.
  induction d as [|[k checks] d IH]; cbn [setdefault_append group_of].
  - destruct (category_eqb cat key); reflexivity.
  - destruct (category_eqb key k) eqn:Ek; cbn [group_of].
    + apply category_eqb_eq in Ek. subst k.
      destruct (category_eqb cat key); reflexivity.
    + rewrite IH. destruct (category_eqb cat key) eqn:Ec; [|reflexivity].
      apply category_eqb_eq in Ec. subst cat. now rewrite Ek.
Qed.

Lemma keys_setdefault (key : CheckCategory) (check : Check)
  (d : list (CheckCategory * list Check)) :
  (forall k, In k (map fst (setdefault_append key check d))
             <-> k = key \/ In k (map fst d))
  /\ (NoDup (map fst d) -> NoDup (map fst (setdefault_append key check d))).
Proof.
  induction d as [|[k' checks] d [IHin IHnd]]; cbn [setdefault_append map fst].
  - split.
    + intros k. simpl. intuition.
    + intros _. repeat constructor. simpl. tauto.
  - destruct (category_eqb key k') eqn:Ek; cbn [map fst].
    + apply category_eqb_eq in Ek. subst k'. split; [|auto].
      intros k. simpl. intuition.
    + split.
      * intros k. simpl. rewrite IHin. intuition.
      * intros Hnd. inversion Hnd as [|? ? Hk' Hd]; subst.
        constructor; [|now apply IHnd].
        rewrite IHin. intros [->|H]; [|contradiction].
        now rewrite category_eqb_refl in Ek.
Qed.

Lemma group_of_fold (cat : CheckCategory) (registry : list Check)
  (d : list (CheckCategory * list Check)) :
  group_of cat
    (fold_left (fun d check => setdefault_append (category check) check d) registry d)
  = match group_of cat d,
          filter (fun check => category_eqb (category check) cat) registry with
    | Some checks, found => Some (checks ++ found)%list
    | None, [] => None
    | None, found => Some found
    end.
Proof.
  revert d. induction registry as [|c registry IH]; intros d; cbn [fold_left filter].
  - destruct (group_of cat d); [now rewrite app_nil_r | reflexivity].
  - rewrite IH, group_of_setdefault, (category_eqb_sym cat).
    destruct (category_eqb (category c) cat) eqn:E.
    + apply category_eqb_eq in E. subst cat.
      destruct (group_of (category c) d); [now rewrite <- app_assoc | reflexivity].
    + reflexivity.
Qed.

Lemma keys_fold (registry : list Check) (d : list (CheckCategory * list Check)) :
  NoDup (map fst d) ->
  NoDup (map fst (fold_left
                    (fun d check => setdefault_append (category check) check d)
                    registry d)).
Proof.
  revert d. induction registry as [|c registry IH]; intros d H; [assumption|].
  cbn [fold_left]. apply IH. now apply keys_setdefault.
Qed.

Lemma group_of_in (cat : CheckCategory) (checks : list Check)
  (d : list (CheckCategory * list Check)) :
  NoDup (map fst d) -> In (cat, checks) d -> group_of cat d = Some checks.
Proof.
  induction d as [|[k cs] d IH]; intros Hnd Hin; [destruct Hin|].
  cbn [map fst] in Hnd. inversion Hnd as [|? ? Hk Hd]; subst.
  cbn [group_of]. destruct Hin as [[= -> ->]|Hin].
  - now rewrite category_eqb_refl.
  - destruct (category_eqb cat k) eqn:E; [|now apply IH].
    apply category_eqb_eq in E. subst k. exfalso. apply Hk.
    apply in_map_iff. now exists (cat, checks).
Qed.

(** X16. The dictionary that the documentation is rendered from has every
    category at most once; the group of a category holds exactly the checks
    of the registry with that category, in the order of the registry, and a
    category without a check has no group: every check is documented once,
    under its own category. *)
Theorem checks_are_grouped_by_category :
  forall registry : list Check,
    NoDup (map fst (checks_by_category registry))
    /\ (forall cat,
           group_of cat (checks_by_category registry)
           = match filter (fun check => category_eqb (category check) cat) registry with
             | [] => None
             | found => Some found
             end)
    /\ (forall cat checks,
           In (cat, checks) (checks_by_category registry) ->
           checks <> []
           /\ checks = filter (fun check => category_eqb (category check) cat) registry).
Proof.
  intros registry.
  assert (Hnd : NoDup (map fst (checks_by_category registry)))
    by (apply keys_fold; constructor).
  assert (Hgroup : forall cat,
             group_of cat (checks_by_category registry)
             = match filter (fun check => category_eqb (category check) cat) registry with
               | [] => None
               | found => Some found
               end).
  { intros cat. unfold checks_by_category. rewrite group_of_fold. reflexivity. }
  split; [exact Hnd|]. split; [exact Hgroup|].
  intros cat checks Hin. pose proof (group_of_in _ _ _ Hnd Hin) as H.
  rewrite Hgroup in H.
  destruct (filter _ registry); [discriminate|].
  injection H as <-. split; [discriminate | reflexivity].
Qed.

End Grouping.

(** * The further properties at sample connectors *)

Lemma checks_are_grouped_by_category_witness :
  group_of SECURITY (checks_by_category ENABLED_CHECKS)
  = Some [CheckConnectorUsesHTTPSOnly.check; CheckConnectorUsesPythonBaseImage.check].
Proof.
  rewrite (proj1 (proj2 (checks_are_grouped_by_category ENABLED_CHECKS))).
  reflexivity.
Defined.

Lemma any_http_url_is_reported_witness :
  CheckConnectorUsesHTTPSOnly.line_has_http
    (Sample.code_world Sample.source_path Sample.plain_line Sample.java)
    Sample.source_path "URL = 'HTTP://Api.Example.COM/v1'" = true.
Proof.
  apply (any_http_url_is_reported
           (Sample.code_world Sample.source_path Sample.plain_line Sample.java)
           (sample_world_ok _ _ _ _)
           Sample.source_path "URL = 'HTTP://Api.Example.COM/v1'"
           "url = '" "pi.example.com/v1'" "a");
    solve [reflexivity | discriminate].
Defined.

Lemma allow_listed_prefix_is_not_reported_witness :
  CheckConnectorUsesHTTPSOnly.line_has_http
    (Sample.code_world Sample.source_path Sample.plain_line Sample.java)
    Sample.source_path "BASE = 'http://localhost:8000/'" = false.
Proof.
  apply (allow_listed_prefix_is_not_reported
           (Sample.code_world Sample.source_path Sample.plain_line Sample.java)
           (sample_world_ok _ _ _ _)
           "http://localhost" Sample.source_path "BASE = 'http://localhost:8000/'"
           "base = '" ":8000/'").
  - simpl. auto.
  - reflexivity.
  - reflexivity.
Defined.

Lemma migration_guide_rule_witness :
  passes (CheckMigrationGuide._run
            (Sample.guide_world ["9.0.0"; "10.0.0"] Sample.upgraded_10)
            Sample.upgraded_10).
Proof.
  refine (proj2 (proj2 (migration_guide_rule
                          (Sample.guide_world ["9.0.0"; "10.0.0"] Sample.upgraded_10)
                          Sample.upgraded_10 _ Sample.guide_path _ _
                          ["9.0.0"; "10.0.0"] eq_refl _ eq_refl eq_refl _ _ _)) _).
  - discriminate.
  - vm_compute. reflexivity.
  - apply perm_swap.
  - simpl. auto.
  - vm_compute. reflexivity.
Defined.

Lemma migration_guide_edges_witness :
  CheckMigrationGuide._run (Sample.world [] [] VNone Sample.java) Sample.java
  = result CheckMigrationGuide.name true
      "No breaking changes found. A migration guide is not required"
  /\ fails (CheckMigrationGuide._run (Sample.world [] [] VNone Sample.upgraded_3)
              Sample.upgraded_3).
Proof.
  split.
  - apply (proj1 (migration_guide_edges (Sample.world [] [] VNone Sample.java)
                    Sample.java)).
    reflexivity.
  - apply (proj1 (proj2 (migration_guide_edges
                           (Sample.world [] [] VNone Sample.upgraded_3)
                           Sample.upgraded_3))).
    + reflexivity.
    + right. exists Sample.guide_path. split; reflexivity.
Defined.

Lemma only_heading_lines_count_witness :
  CheckMigrationGuide.heading_versions ["Do this first."] = [].
Proof.
  apply (proj2 (proj2 only_heading_lines_count)). reflexivity.
Defined.
